(** * hwui display-list operations (libs/hwui/DisplayListOp.h)

    A shallow embedding of the recorded canvas operations of the hardware UI
    renderer: the operation hierarchy ([StateOp], [DrawOp], [DrawBoundedOp],
    [DrawStrokableOp] and their subclasses), the two execution protocols
    [defer] and [replay], local bounds, and batch classification.

    The renderer, the deferred display list and nested display lists are
    collaborators declared in other headers; they appear here as an interface
    ([Collaborators]) over abstract states, and every call made to them is
    recorded in a journal carried by the renderer. *)

From Stdlib Require Import ZArith List Bool Lia.
From Stdlib Require Import Floats.SpecFloat.
From Stdlib Require Strings.String.
Import String.StringSyntax.
Delimit Scope string_scope with string.
Import ListNotations.
Local Open Scope Z_scope.

(** ** Machine numbers *)

(** C [int]: 32 bits, two's complement; arithmetic wraps. *)
Definition int := Z.
Definition INT_MIN : int := - 2 ^ 31.
Definition INT_MAX : int := 2 ^ 31 - 1.
Definition wrap (z : Z) : int := (z + 2 ^ 31) mod 2 ^ 32 - 2 ^ 31.
Definition int_add (a b : int) : int := wrap (a + b).
Definition in_int (z : Z) : Prop := INT_MIN <= z <= INT_MAX.

(** C [float]: IEEE 754 binary32 (24 bits of precision, exponents below 128),
    as the specification floats of the standard library. *)
Definition float := spec_float.
Definition fadd : float -> float -> float := SFadd 24 128.
Definition fsub : float -> float -> float := SFsub 24 128.
Definition fmul : float -> float -> float := SFmul 24 128.
Definition fzero : float := S754_zero false.
(** The literal [0.5f]. *)
Definition fhalf : float := S754_finite false 8388608 (-24).

Definition is_nan (x : float) : bool :=
  match x with S754_nan => true | _ => false end.

(** [fminf] and [fmaxf] of the C library: a NaN argument is treated as
    missing data, the other argument is returned. *)
Definition fminf (x y : float) : float :=
  match x, y with
  | S754_nan, _ => y
  | _, S754_nan => x
  | _, _ => if SFltb x y then x else y
  end.

Definition fmaxf (x y : float) : float :=
  match x, y with
  | S754_nan, _ => y
  | _, S754_nan => x
  | _, _ => if SFltb x y then y else x
  end.

(** ** Rect *)

(** Modelled from the spec: the header Rect.h is not among the sources; a
    rectangle is the axis-aligned box of four floats that the operations read
    as [left], [top], [right], [bottom]; [setEmpty] makes all four zero and
    [outset] moves every edge outwards by the same amount. *)
Record Rect := mkRect { left : float; top : float; right : float; bottom : float }.

Definition Rect_default : Rect := mkRect fzero fzero fzero fzero.
Definition setEmpty (_ : Rect) : Rect := mkRect fzero fzero fzero fzero.
Definition outset (delta : float) (r : Rect) : Rect :=
  mkRect (fsub (left r) delta) (fsub (top r) delta)
         (fadd (right r) delta) (fadd (bottom r) delta).

(** A point lies in a rectangle when it is between the edges in both
    directions (comparisons of floats: false as soon as a NaN is involved). *)
Definition contains_point (r : Rect) (x y : float) : bool :=
  SFleb (left r) x && SFleb x (right r) && SFleb (top r) y && SFleb y (bottom r).

(** ** Point arrays *)

(** [points[i]] on an array of [length points] floats; reading outside the
    array has no defined result. *)
Definition points_get (points : list float) (i : int) : option float :=
  if i <? 0 then None else nth_error points (Z.to_nat i).

(** One turn of the loop of the point-list constructor of [DrawBoundedOp]. *)
Definition include_point (b : Rect) (x y : float) : Rect :=
  mkRect (fminf (left b) x) (fminf (top b) y)
         (fmaxf (right b) x) (fmaxf (bottom b) y).

(** [for (int i = 2; i < count; i += 2) { ... }]; [None] is a read outside the
    array. The fuel bounds the number of turns. Inside the loop [i < count],
    so [i + 1] cannot overflow; [i += 2] can, and wraps. *)
Fixpoint bounds_loop (fuel : nat) (points : list float) (count i : int) (b : Rect)
  : option Rect :=
  if i <? count then
    match fuel with
    | O => None
    | S fuel' =>
        match points_get points i, points_get points (i + 1) with
        | Some x, Some y =>
            bounds_loop fuel' points count (int_add i 2) (include_point b x y)
        | _, _ => None
        end
    end
  else Some b.

(** [DrawBoundedOp(const float* points, int count, SkPaint* paint)]: the
    bounds part. Every turn reads two floats, so [length points] turns are
    more than any run without a bad read can take. *)
Definition DrawBoundedOp_points (points : list float) (count : int) : option Rect :=
  match points_get points 0, points_get points 1 with
  | Some x0, Some y0 =>
      bounds_loop (length points) points count 2 (mkRect x0 y0 x0 y0)
  | _, _ => None
  end.

(** The same rectangle in the words of the specification: start from the
    first point, fold the following points with component-wise min/max. *)
Definition flatten_points (pts : list (float * float)) : list float :=
  flat_map (fun p => [fst p; snd p]) pts.

Definition bounding_box (pts : list (float * float)) : option Rect :=
  match pts with
  | [] => None
  | (x0, y0) :: rest =>
      Some (fold_left (fun b p => include_point b (fst p) (snd p)) rest
                      (mkRect x0 y0 x0 y0))
  end.

(** Comparison of floats is the lexicographic order of a key made of class
    and sign, exponent, and mantissa; used to reason about [SFleb]. *)
Definition order_key (x : float) : Z * Z * Z :=
  match x with
  | S754_zero _ => (0, 0, 0)
  | S754_infinity s => (if s then -2 else 2, 0, 0)
  | S754_nan => (0, 0, 0)
  | S754_finite s m e => if s then (-1, - e, - Zpos m) else (1, e, Zpos m)
  end.

Definition lex_le (a b : Z * Z * Z) : Prop :=
  let '(a1, a2, a3) := a in
  let '(b1, b2, b3) := b in
  a1 < b1 \/ (a1 = b1 /\ (a2 < b2 \/ (a2 = b2 /\ a3 <= b3))).

Definition lex_lt (a b : Z * Z * Z) : Prop :=
  let '(a1, a2, a3) := a in
  let '(b1, b2, b3) := b in
  a1 < b1 \/ (a1 = b1 /\ (a2 < b2 \/ (a2 = b2 /\ a3 < b3))).

(** ** Resources owned elsewhere *)

(** Pointers to objects this header only passes along (bitmaps, paths,
    matrices, regions, shaders, filters, functors, layers, text and colour
    buffers): the address. *)
Definition handle := Z.

Inductive SkPaintStyle := kFill_Style | kStroke_Style | kStrokeAndFill_Style.
Inductive SkPaintAlign := kLeft_Align | kCenter_Align | kRight_Align.

Definition SkPaintStyle_eqb (a b : SkPaintStyle) : bool :=
  match a, b with
  | kFill_Style, kFill_Style
  | kStroke_Style, kStroke_Style
  | kStrokeAndFill_Style, kStrokeAndFill_Style => true
  | _, _ => false
  end.

(** What the operations read from an [SkPaint]. A nullable [SkPaint*] is an
    [option SkPaint]; [getPathEffect] is itself a nullable pointer. *)
Record SkPaint := mkPaint {
  getStrokeWidth : float;
  getStyle : SkPaintStyle;
  getPathEffect : option handle;
  isAntiAlias : bool;
  getColor : Z;
  getTextAlign : SkPaintAlign
}.

Inductive SkRegionOp :=
  | kDifference_Op | kIntersect_Op | kUnion_Op | kXOR_Op
  | kReverseDifference_Op | kReplace_Op.

Definition SkXfermodeMode := int.

(** [mat4]: sixteen floats, kept as their 32-bit patterns because the header
    fills them with [memset] and the matrix comparison is bytewise. *)
Definition mat4 := list Z.
Definition mat4_eqb (a b : mat4) : bool :=
  if list_eq_dec Z.eq_dec a b then true else false.
(** [memset(&data[0], 0xff, 16 * sizeof(float))] *)
Definition mat4_all_ones : mat4 := repeat 4294967295 16.
(** [mat4::identity()]; 1065353216 is the pattern of [1.0f]. *)
Definition mat4_identity : mat4 :=
  [1065353216; 0; 0; 0;  0; 1065353216; 0; 0;
   0; 0; 1065353216; 0;  0; 0; 0; 1065353216].

(** Modelled from the spec: [DeferredDisplayState] is declared in
    DeferredDisplayList.h, not among the sources; it is the state snapshot of
    an operation, of which this header touches the bounds rectangle and reads
    the transform. *)
Record DeferredDisplayState := mkState { mBounds : Rect; mMatrix : mat4 }.

(** Modelled from the spec: a nested recorded list ([DisplayList], declared in
    DisplayList.h) as seen from this header: its declared size (as the floats
    the bounds constructor receives) and whether it reports itself
    renderable. Its [defer] and [replay] are collaborator calls, see
    [Collaborators]. *)
Record DisplayList := mkDisplayList {
  displayList_id : handle;
  getWidth : float;
  getHeight : float;
  isRenderable : bool
}.

(** [DeferredDisplayList::OpBatchId] *)
Inductive OpBatchId :=
  | kOpBatch_None | kOpBatch_Bitmap | kOpBatch_Patch | kOpBatch_AlphaVertices
  | kOpBatch_Vertices | kOpBatch_AlphaMaskTexture | kOpBatch_Text
  | kOpBatch_ColorText.

(** ** The operation hierarchy *)

(** Subclasses of [StateOp], each with its members. [ClipRegionOp] declares a
    private [mOp] of its own beside the one of [ClipOp]; its constructor
    initialises only the inherited one, and [applyState] reads the private
    one. *)
Inductive StateOpClass :=
  | SaveOp (mFlags : int)
  | RestoreToCountOp (mCount : int)
  | SaveLayerOp (mArea : Rect) (mAlpha : int) (mMode : SkXfermodeMode) (mFlags : int)
  | TranslateOp (mDx mDy : float)
  | RotateOp (mDegrees : float)
  | ScaleOp (mSx mSy : float)
  | SkewOp (mSx mSy : float)
  | SetMatrixOp (mMatrix : handle)
  | ConcatMatrixOp (mMatrix : handle)
  | ClipRectOp (mOp : SkRegionOp) (mArea : Rect)
  | ClipPathOp (mOp : SkRegionOp) (mPath : handle)
  | ClipRegionOp (mOp : SkRegionOp) (mRegion : handle) (mOp_private : SkRegionOp)
  | ResetShaderOp
  | SetupShaderOp (mShader : handle)
  | ResetColorFilterOp
  | SetupColorFilterOp (mColorFilter : handle)
  | ResetShadowOp
  | SetupShadowOp (mRadius mDx mDy : float) (mColor : int)
  | ResetPaintFilterOp
  | SetupPaintFilterOp (mClearBits mSetBits : int).

Record StateOp := mkStateOp {
  state_of_StateOp : DeferredDisplayState;   (* DisplayListOp::state *)
  stateClass : StateOpClass
}.

(** Subclasses of [DrawStrokableOp]. *)
Inductive DrawStrokableOp :=
  | DrawRectOp
  | DrawRoundRectOp (mRx mRy : float)
  | DrawCircleOp (mX mY mRadius : float)
  | DrawOvalOp
  | DrawArcOp (mStartAngle mSweepAngle : float) (mUseCenter : bool).

(** Subclasses of [DrawBoundedOp]; [mLocalBounds] is kept beside them in
    [Bounded]. [DrawTextOp] also carries its cache [mPrecacheTransform], the
    one member that is not a constructor argument. *)
Inductive DrawBoundedOp :=
  | DrawBitmapOp (mBitmap : handle)
  | DrawBitmapMatrixOp (mBitmap mMatrix : handle)
  | DrawBitmapRectOp (mBitmap : handle) (mSrc : Rect)
  | DrawBitmapDataOp (mBitmap : handle)
  | DrawBitmapMeshOp (mBitmap : handle) (mMeshWidth mMeshHeight : int)
                     (mVertices : list float) (mColors : handle)
  | DrawPatchOp (mBitmap mxDivs myDivs mColors : handle)
                (mxDivsCount myDivsCount : Z) (mNumColors : Z)
                (mAlpha : int) (mMode : SkXfermodeMode)
  | Strokable (s : DrawStrokableOp)
  | DrawRectsOp (mRects : list float) (mCount : int)
  | DrawPathOp (mPath : handle)
  | DrawLinesOp (mPoints : list float) (mCount : int)
  | DrawPointsOp (mPoints : list float) (mCount : int)
  | DrawTextOp (mText : handle) (mBytesCount mCount : int) (mX mY : float)
               (mPositions : handle) (mLength : float) (mPrecacheTransform : mat4)
  | DrawDisplayListOp (mDisplayList : option DisplayList) (mFlags : int).

(** Subclasses of [DrawOp]. *)
Inductive DrawOpClass :=
  | Bounded (mLocalBounds : Rect) (b : DrawBoundedOp)
  | DrawColorOp (mColor : int) (mMode : SkXfermodeMode)
  | DrawTextOnPathOp (mText : handle) (mBytesCount mCount : int)
                     (mPath : handle) (mHOffset mVOffset : float)
  | DrawPosTextOp (mText : handle) (mBytesCount mCount : int) (mPositions : handle)
  | DrawFunctorOp (mFunctor : handle)
  | DrawLayerOp (mLayer : handle) (mX mY : float).

Record DrawOp := mkDrawOp {
  state : DeferredDisplayState;              (* DisplayListOp::state *)
  mPaint : option SkPaint;
  mQuickRejected : bool;
  drawClass : DrawOpClass
}.

Inductive DisplayListOp :=
  | IsStateOp (op : StateOp)
  | IsDrawOp (op : DrawOp).

Definition setQuickRejected (quickRejected : bool) (op : DrawOp) : DrawOp :=
  mkDrawOp (state op) (mPaint op) quickRejected (drawClass op).
Definition getQuickRejected (op : DrawOp) : bool := mQuickRejected op.

Definition set_mBounds (b : Rect) (op : DrawOp) : DrawOp :=
  mkDrawOp (mkState b (mMatrix (state op))) (mPaint op) (mQuickRejected op)
           (drawClass op).

(** The operation with [state] rewritten, as the deferred list leaves it. *)
Definition DrawOp_with_state (st : DeferredDisplayState) (op : DrawOp) : DrawOp :=
  mkDrawOp st (mPaint op) (mQuickRejected op) (drawClass op).
Definition StateOp_with_state (st : DeferredDisplayState) (op : StateOp) : StateOp :=
  mkStateOp st (stateClass op).

(** What the constructor captured: the paint and the members of the class,
    the cache of [DrawTextOp] blanked. *)
Definition blank_cache (c : DrawOpClass) : DrawOpClass :=
  match c with
  | Bounded lb (DrawTextOp t bc n x y ps len _) =>
      Bounded lb (DrawTextOp t bc n x y ps len mat4_all_ones)
  | _ => c
  end.

Definition captured (op : DisplayListOp) : option SkPaint * (StateOpClass + DrawOpClass) :=
  match op with
  | IsStateOp s => (None, inl (stateClass s))
  | IsDrawOp d => (mPaint d, inr (blank_cache (drawClass d)))
  end.

(** Every member of the operation that is not the state snapshot. *)
Definition members (op : DisplayListOp)
  : option (option SkPaint * bool) * (StateOpClass + DrawOpClass) :=
  match op with
  | IsStateOp s => (None, inl (stateClass s))
  | IsDrawOp d => (Some (mPaint d, mQuickRejected d), inr (drawClass d))
  end.

(** ** Collaborators *)

(** The entry points of [OpenGLRenderer] (and of the caches reached through
    [renderer.getCaches()]) that the operations call, with their arguments. *)
Inductive RendererCall :=
  | save (flags : int)
  | restoreToCount (saveCount : int)
  | getSaveCount
  | saveLayer (l t r b : float) (alpha : int) (mode : SkXfermodeMode) (flags : int)
  | saveLayerDeferred (l t r b : float) (alpha : int) (mode : SkXfermodeMode) (flags : int)
  | translate (dx dy : float)
  | rotate (degrees : float)
  | scale (sx sy : float)
  | skew (sx sy : float)
  | setMatrix (matrix : handle)
  | concatMatrix (matrix : handle)
  | clipRect (l t r b : float) (op : SkRegionOp)
  | clipPath (path : handle) (op : SkRegionOp)
  | clipRegion (region : handle) (op : SkRegionOp)
  | resetShader
  | setupShader (shader : handle)
  | resetColorFilter
  | setupColorFilter (filter : handle)
  | resetShadow
  | setupShadow (radius dx dy : float) (color : int)
  | resetPaintFilter
  | setupPaintFilter (clearBits setBits : int)
  | filterPaint (paint : option SkPaint)
  | findBestFontTransform (transform : mat4)
  | pathCache_precache (path : handle) (paint : option SkPaint)
  | getFontRenderer (paint : option SkPaint)
  | fontRenderer_precache (fontRenderer : int) (paint : option SkPaint)
                          (text : handle) (count : int) (transform : mat4)
  | drawBitmap (bitmap : handle) (l t : float) (paint : option SkPaint)
  | drawBitmap_matrix (bitmap matrix : handle) (paint : option SkPaint)
  | drawBitmap_rect (bitmap : handle) (src dst : Rect) (paint : option SkPaint)
  | drawBitmapData (bitmap : handle) (l t : float) (paint : option SkPaint)
  | drawBitmapMesh (bitmap : handle) (meshWidth meshHeight : int)
                   (vertices : list float) (colors : handle) (paint : option SkPaint)
  | drawPatch (bitmap xDivs yDivs colors : handle) (width height : Z)
              (numColors : Z) (l t r b : float) (alpha : int) (mode : SkXfermodeMode)
  | drawColor (color : int) (mode : SkXfermodeMode)
  | drawRect (l t r b : float) (paint : option SkPaint)
  | drawRects (rects : list float) (count : int) (paint : option SkPaint)
  | drawRoundRect (l t r b rx ry : float) (paint : option SkPaint)
  | drawCircle (x y radius : float) (paint : option SkPaint)
  | drawOval (l t r b : float) (paint : option SkPaint)
  | drawArc (l t r b startAngle sweepAngle : float) (useCenter : bool)
            (paint : option SkPaint)
  | drawPath (path : handle) (paint : option SkPaint)
  | drawLines (points : list float) (count : int) (paint : option SkPaint)
  | drawPoints (points : list float) (count : int) (paint : option SkPaint)
  | drawTextOnPath (text : handle) (bytesCount count : int) (path : handle)
                   (hOffset vOffset : float) (paint : option SkPaint)
  | drawPosText (text : handle) (bytesCount count : int) (positions : handle)
                (paint : option SkPaint)
  | drawText (text : handle) (bytesCount count : int) (x y : float)
             (positions : handle) (paint : option SkPaint) (length : float)
  | startMark (name : String.string)
  | endMark
  | callDrawGLFunction (functor : handle) (dirty : Rect)
  | drawLayer (layer : handle) (x y : float).

(** The entry points of [DeferredDisplayList]. The operation is passed as
    [this]: the call carries the operation as it is at that moment, and the
    list may write its [state] through the pointer (see [deferred_do]). *)
Inductive DeferredCall :=
  | addSave (op : StateOp) (newSaveCount : int)
  | addRestoreToCount (op : StateOp) (newSaveCount : int)
  | addClip (op : StateOp)
  | addSaveLayer (op : StateOp) (newSaveCount : int)
  | addDrawOp (op : DrawOp).

(** Everything an operation can ask of the outside. *)
Inductive Call :=
  | Renderer (c : RendererCall)
  | Deferred (c : DeferredCall)
  | DisplayList_defer (displayList : DisplayList) (level : int)
  | DisplayList_replay (displayList : DisplayList) (level : int).

(** The renderer as the operations see it: a state of its own, and the
    journal of the calls made on it or with it, oldest first. *)
Record OpenGLRenderer (R : Type) := mkRenderer { impl : R; journal : list Call }.
Arguments mkRenderer {R}.
Arguments impl {R}.
Arguments journal {R}.

Module DeferStateStruct.
Record t (R D : Type) := mk {
  mDeferredList : D;
  mRenderer : OpenGLRenderer R;
  mReplayFlags : int
}.
Arguments mk {R D}.
Arguments mDeferredList {R D}.
Arguments mRenderer {R D}.
Arguments mReplayFlags {R D}.
End DeferStateStruct.

Module ReplayStateStruct.
Record t (R : Type) := mk {
  mRenderer : OpenGLRenderer R;
  mDirty : Rect;
  mReplayFlags : int;
  mDrawGlStatus : int
}.
Arguments mk {R}.
Arguments mRenderer {R}.
Arguments mDirty {R}.
Arguments mReplayFlags {R}.
Arguments mDrawGlStatus {R}.
End ReplayStateStruct.

(** What the collaborators do with a call, over a renderer state [R] and a
  deferred-list state [D]. The deferred list and nested lists receive the
  renderer by reference and may change it. *)
Class Collaborators (R D : Type) := {
(** entry points answering an [int] (a save count, a [status_t], a [bool],
    the font renderer that [getFontRenderer] picks) or nothing *)
renderer_do : RendererCall -> R -> int * R;
renderer_filterPaint : option SkPaint -> R -> option SkPaint * R;
renderer_findBestFontTransform : mat4 -> R -> mat4 * R;
(** answers a status and may rewrite the dirty rectangle *)
renderer_callDrawGLFunction : handle -> Rect -> R -> (int * Rect) * R;
(** the renderer and the list after the call, and the [state] the list
    leaves in the operation it was handed (the header says of [state]:
    "stores the relevant canvas state of the object between deferral and
    replay"; it is the one public data member of an operation) *)
deferred_do : DeferredCall -> R -> D -> (R * D) * DeferredDisplayState;
(** [DisplayList::defer(deferStruct, level)] *)
displayList_defer : DisplayList -> int -> int -> R -> D -> R * D;
(** [DisplayList::replay(replayStruct, level)]: renderer, dirty rectangle
    and draw status after the nested pass *)
displayList_replay : DisplayList -> int -> int -> R -> Rect -> int -> R * Rect * int;
(** [DisplayList::kReplayFlag_ClipChildren] *)
kReplayFlag_ClipChildren : int;
(** [DrawGlInfo::kStatusDone] *)
kStatusDone : int
}.

(** ** A state monad for the passes *)

Definition M (S A : Type) : Type := S -> A * S.
Definition ret {S A} (a : A) : M S A := fun s => (a, s).
Definition bind {S A B} (m : M S A) (k : A -> M S B) : M S B :=
fun s => let (a, s') := m s in k a s'.

Declare Scope pass_scope.
Delimit Scope pass_scope with pass.
Notation "x <- m ;; k" := (bind m (fun x => k))
(at level 61, m at next level, right associativity) : pass_scope.
Notation "m ;; k" := (bind m (fun _ => k))
(at level 61, right associativity) : pass_scope.

(** ** Methods of the operations *)

Section Operations.
Context {R D : Type} `{Collaborators R D}.
Local Open Scope pass_scope.

Local Abbreviation Renderer_t := (OpenGLRenderer R).
Local Abbreviation DeferState := (DeferStateStruct.t R D).
Local Abbreviation ReplayState := (ReplayStateStruct.t R).

(** *** Calls *)

(** A call on the renderer: answered by the renderer, noted in the journal. *)
Definition call (c : RendererCall) : M Renderer_t int :=
  fun r =>
    let (v, i) := renderer_do c (impl r) in
    (v, mkRenderer i (journal r ++ [Renderer c])).

Definition call_ (c : RendererCall) : M Renderer_t unit :=
  _ <- call c ;; ret tt.

(** [DrawOp::getPaint]: [renderer.filterPaint(mPaint)] *)
Definition getPaint (op : DrawOp) : M Renderer_t (option SkPaint) :=
  fun r =>
    let (p, i) := renderer_filterPaint (mPaint op) (impl r) in
    (p, mkRenderer i (journal r ++ [Renderer (filterPaint (mPaint op))])).

Definition call_findBestFontTransform (m : mat4) : M Renderer_t mat4 :=
  fun r =>
    let (t, i) := renderer_findBestFontTransform m (impl r) in
    (t, mkRenderer i (journal r ++ [Renderer (findBestFontTransform m)])).

Definition call_callDrawGLFunction (functor : handle) (dirty : Rect)
  : M Renderer_t (int * Rect) :=
  fun r =>
    let (a, i) := renderer_callDrawGLFunction functor dirty (impl r) in
    (a, mkRenderer i (journal r ++ [Renderer (callDrawGLFunction functor dirty)])).

(** A method taking [deferStruct.mRenderer] / [replayStruct.mRenderer]. *)
Definition on_deferStruct_mRenderer {A} (m : M Renderer_t A) : M DeferState A :=
  fun ds =>
    let (a, r) := m (DeferStateStruct.mRenderer ds) in
    (a, DeferStateStruct.mk (DeferStateStruct.mDeferredList ds) r
                            (DeferStateStruct.mReplayFlags ds)).

(** A call [deferStruct.mDeferredList.f(deferStruct.mRenderer, this, ...)]:
    answers the [state] the list leaves in the operation. *)
Definition deferred (c : DeferredCall) : M DeferState DeferredDisplayState :=
  fun ds =>
    let r := DeferStateStruct.mRenderer ds in
    let '((i, d), st) :=
      deferred_do c (impl r) (DeferStateStruct.mDeferredList ds) in
    (st, DeferStateStruct.mk d (mkRenderer i (journal r ++ [Deferred c]))
                             (DeferStateStruct.mReplayFlags ds)).

(** [flags & DisplayList::kReplayFlag_ClipChildren], as a condition. *)
Definition clipChildren (flags : int) : bool :=
  negb (Z.land flags kReplayFlag_ClipChildren =? 0).

(** *** State operations *)

(** [applyState(renderer, saveCount)], by class. *)
Definition applyState (op : StateOp) (saveCount : int) : M Renderer_t unit :=
  match stateClass op with
  | SaveOp mFlags => call_ (save mFlags)
  | RestoreToCountOp mCount => call_ (restoreToCount (int_add saveCount mCount))
  | SaveLayerOp mArea mAlpha mMode mFlags =>
      call_ (saveLayer (left mArea) (top mArea) (right mArea) (bottom mArea)
                       mAlpha mMode mFlags)
  | TranslateOp mDx mDy => call_ (translate mDx mDy)
  | RotateOp mDegrees => call_ (rotate mDegrees)
  | ScaleOp mSx mSy => call_ (scale mSx mSy)
  | SkewOp mSx mSy => call_ (skew mSx mSy)
  | SetMatrixOp mMatrix => call_ (setMatrix mMatrix)
  | ConcatMatrixOp mMatrix => call_ (concatMatrix mMatrix)
  | ClipRectOp mOp mArea =>
      call_ (clipRect (left mArea) (top mArea) (right mArea) (bottom mArea) mOp)
  | ClipPathOp mOp mPath => call_ (clipPath mPath mOp)
  | ClipRegionOp _ mRegion mOp_private => call_ (clipRegion mRegion mOp_private)
  | ResetShaderOp => call_ resetShader
  | SetupShaderOp mShader => call_ (setupShader mShader)
  | ResetColorFilterOp => call_ resetColorFilter
  | SetupColorFilterOp mColorFilter => call_ (setupColorFilter mColorFilter)
  | ResetShadowOp => call_ resetShadow
  | SetupShadowOp mRadius mDx mDy mColor => call_ (setupShadow mRadius mDx mDy mColor)
  | ResetPaintFilterOp => call_ resetPaintFilter
  | SetupPaintFilterOp mClearBits mSetBits => call_ (setupPaintFilter mClearBits mSetBits)
  end.

Definition isClipOp (op : StateOp) : bool :=
  match stateClass op with
  | ClipRectOp _ _ | ClipPathOp _ _ | ClipRegionOp _ _ _ => true
  | _ => false
  end.

(** [defer(deferStruct, saveCount, level)] of a state operation: the
    overrides of [SaveOp], [RestoreToCountOp], [SaveLayerOp] and [ClipOp],
    and the default of [StateOp]; the operation as the call leaves it. *)
Definition StateOp_defer (op : StateOp) (saveCount level : int)
  : M DeferState StateOp :=
  match stateClass op with
  | SaveOp mFlags =>
      newSaveCount <- on_deferStruct_mRenderer (call (save mFlags)) ;;
      st <- deferred (addSave op newSaveCount) ;;
      ret (StateOp_with_state st op)
  | RestoreToCountOp mCount =>
      st <- deferred (addRestoreToCount op (int_add saveCount mCount)) ;;
      on_deferStruct_mRenderer (call_ (restoreToCount (int_add saveCount mCount))) ;;
      ret (StateOp_with_state st op)
  | SaveLayerOp mArea mAlpha mMode mFlags =>
      newSaveCount <- on_deferStruct_mRenderer (call getSaveCount) ;;
      st <- deferred (addSaveLayer op newSaveCount) ;;
      on_deferStruct_mRenderer
        (call_ (saveLayerDeferred (left mArea) (top mArea) (right mArea)
                                  (bottom mArea) mAlpha mMode mFlags)) ;;
      ret (StateOp_with_state st op)
  | ClipRectOp _ _ | ClipPathOp _ _ | ClipRegionOp _ _ _ =>
      st <- deferred (addClip op) ;;
      on_deferStruct_mRenderer (applyState (StateOp_with_state st op) saveCount) ;;
      ret (StateOp_with_state st op)
  | _ => on_deferStruct_mRenderer (applyState op saveCount) ;; ret op
  end.

Definition on_replayStruct_mRenderer {A} (m : M Renderer_t A) : M ReplayState A :=
  fun rs =>
    let (a, r) := m (ReplayStateStruct.mRenderer rs) in
    (a, ReplayStateStruct.mk r (ReplayStateStruct.mDirty rs)
                             (ReplayStateStruct.mReplayFlags rs)
                             (ReplayStateStruct.mDrawGlStatus rs)).

(** [StateOp::replay] *)
Definition StateOp_replay (op : StateOp) (saveCount level : int) : M ReplayState unit :=
  on_replayStruct_mRenderer (applyState op saveCount).

(** *** Draw operations *)

(** [DrawOp::strokeWidthOutset], for an operation whose [mPaint] is the
    (non-null) paint given; on a null [mPaint] the call has no defined
    result. *)
Definition strokeWidthOutset (paint : SkPaint) : float :=
  fmul (getStrokeWidth paint) fhalf.

(** [getLocalBounds(localBounds)]: answers whether bounds exist and leaves
    them in [localBounds]. [DrawOp] answers no, [DrawBoundedOp] hands out
    [mLocalBounds], [DrawStrokableOp] outsets them for a stroked paint. *)
Definition getLocalBounds (op : DrawOp) (localBounds : Rect) : bool * Rect :=
  match drawClass op with
  | Bounded mLocalBounds (Strokable _) =>
      (true,
       match mPaint op with
       | Some paint =>
           if negb (SkPaintStyle_eqb (getStyle paint) kFill_Style)
           then outset (strokeWidthOutset paint) mLocalBounds
           else mLocalBounds
       | None => mLocalBounds
       end)
  | Bounded mLocalBounds _ => (true, mLocalBounds)
  | _ => (false, localBounds)
  end.

Definition antiAlias_batch (paint : SkPaint) : OpBatchId :=
  if isAntiAlias paint then kOpBatch_AlphaVertices else kOpBatch_Vertices.

Definition text_batch (paint : SkPaint) : OpBatchId :=
  if getColor paint =? 4278190080 (* 0xff000000 *)
  then kOpBatch_Text else kOpBatch_ColorText.

(** [getBatchId()]; [None] where the method dereferences a null [mPaint]. *)
Definition getBatchId (op : DrawOp) : option OpBatchId :=
  match drawClass op with
  | Bounded _ b =>
      match b with
      | DrawBitmapOp _ | DrawBitmapMatrixOp _ _ | DrawBitmapRectOp _ _
      | DrawBitmapDataOp _ | DrawBitmapMeshOp _ _ _ _ _ => Some kOpBatch_Bitmap
      | DrawPatchOp _ _ _ _ _ _ _ _ _ => Some kOpBatch_Patch
      | Strokable _ =>
          match mPaint op with
          | Some paint =>
              Some match getPathEffect paint with
                   | Some _ => kOpBatch_AlphaMaskTexture
                   | None => antiAlias_batch paint
                   end
          | None => None
          end
      | DrawRectsOp _ _ => Some kOpBatch_Vertices
      | DrawPathOp _ => Some kOpBatch_AlphaMaskTexture
      | DrawLinesOp _ _ | DrawPointsOp _ _ => option_map antiAlias_batch (mPaint op)
      | DrawTextOp _ _ _ _ _ _ _ _ => option_map text_batch (mPaint op)
      | DrawDisplayListOp _ _ => Some kOpBatch_None
      end
  | DrawTextOnPathOp _ _ _ _ _ _ | DrawPosTextOp _ _ _ _ =>
      option_map text_batch (mPaint op)
  | DrawColorOp _ _ | DrawFunctorOp _ | DrawLayerOp _ _ _ => Some kOpBatch_None
  end.

(** A draw entry point taking [getPaint(renderer)] as its paint. *)
Definition draw_with_paint (op : DrawOp) (dirty : Rect)
           (c : option SkPaint -> RendererCall) : M Renderer_t (int * Rect) :=
  paint <- getPaint op ;;
  status <- call (c paint) ;;
  ret (status, dirty).

(** [applyDraw(renderer, dirty, level)], by class: the status answered by
    the renderer, and the dirty rectangle. *)
Definition applyDraw (op : DrawOp) (dirty : Rect) (level : int)
  : M Renderer_t (int * Rect) :=
  match drawClass op with
  | Bounded lb b =>
      match b with
      | DrawBitmapOp mBitmap =>
          draw_with_paint op dirty (drawBitmap mBitmap (left lb) (top lb))
      | DrawBitmapMatrixOp mBitmap mMatrix =>
          draw_with_paint op dirty (drawBitmap_matrix mBitmap mMatrix)
      | DrawBitmapRectOp mBitmap mSrc =>
          draw_with_paint op dirty (drawBitmap_rect mBitmap mSrc lb)
      | DrawBitmapDataOp mBitmap =>
          draw_with_paint op dirty (drawBitmapData mBitmap (left lb) (top lb))
      | DrawBitmapMeshOp mBitmap mMeshWidth mMeshHeight mVertices mColors =>
          draw_with_paint op dirty
            (drawBitmapMesh mBitmap mMeshWidth mMeshHeight mVertices mColors)
      | DrawPatchOp mBitmap mxDivs myDivs mColors mxDivsCount myDivsCount
                    mNumColors mAlpha mMode =>
          status <- call (drawPatch mBitmap mxDivs myDivs mColors mxDivsCount
                                    myDivsCount mNumColors (left lb) (top lb)
                                    (right lb) (bottom lb) mAlpha mMode) ;;
          ret (status, dirty)
      | Strokable DrawRectOp =>
          draw_with_paint op dirty (drawRect (left lb) (top lb) (right lb) (bottom lb))
      | Strokable (DrawRoundRectOp mRx mRy) =>
          draw_with_paint op dirty
            (drawRoundRect (left lb) (top lb) (right lb) (bottom lb) mRx mRy)
      | Strokable (DrawCircleOp mX mY mRadius) =>
          draw_with_paint op dirty (drawCircle mX mY mRadius)
      | Strokable DrawOvalOp =>
          draw_with_paint op dirty (drawOval (left lb) (top lb) (right lb) (bottom lb))
      | Strokable (DrawArcOp mStartAngle mSweepAngle mUseCenter) =>
          draw_with_paint op dirty
            (drawArc (left lb) (top lb) (right lb) (bottom lb)
                     mStartAngle mSweepAngle mUseCenter)
      | DrawRectsOp mRects mCount => draw_with_paint op dirty (drawRects mRects mCount)
      | DrawPathOp mPath => draw_with_paint op dirty (drawPath mPath)
      | DrawLinesOp mPoints mCount => draw_with_paint op dirty (drawLines mPoints mCount)
      | DrawPointsOp mPoints mCount => draw_with_paint op dirty (drawPoints mPoints mCount)
      | DrawTextOp mText mBytesCount mCount mX mY mPositions mLength _ =>
          draw_with_paint op dirty
            (fun paint => drawText mText mBytesCount mCount mX mY mPositions
                                   paint mLength)
      | DrawDisplayListOp _ _ => ret (kStatusDone, dirty)
      end
  | DrawColorOp mColor mMode =>
      status <- call (drawColor mColor mMode) ;; ret (status, dirty)
  | DrawTextOnPathOp mText mBytesCount mCount mPath mHOffset mVOffset =>
      draw_with_paint op dirty
        (drawTextOnPath mText mBytesCount mCount mPath mHOffset mVOffset)
  | DrawPosTextOp mText mBytesCount mCount mPositions =>
      draw_with_paint op dirty (drawPosText mText mBytesCount mCount mPositions)
  | DrawFunctorOp mFunctor =>
      call_ (startMark "GL functor"%string) ;;
      answer <- call_callDrawGLFunction mFunctor dirty ;;
      call_ endMark ;;
      ret answer
  | DrawLayerOp mLayer mX mY =>
      status <- call (drawLayer mLayer mX mY) ;; ret (status, dirty)
  end.

(** [onDrawOpDeferred(renderer)]: the operation afterwards. Empty in
    [DrawOp]; paths and texts precache, the texts on the font renderer that
    [getCaches().fontRenderer->getFontRenderer(paint)] picks; [DrawTextOp]
    remembers the transform it precached for. *)
Definition onDrawOpDeferred (op : DrawOp) : M Renderer_t DrawOp :=
  match drawClass op with
  | Bounded _ (DrawPathOp mPath) =>
      paint <- getPaint op ;;
      call_ (pathCache_precache mPath paint) ;;
      ret op
  | DrawTextOnPathOp mText _ mCount _ _ _ | DrawPosTextOp mText _ mCount _ =>
      paint <- getPaint op ;;
      fontRenderer <- call (getFontRenderer paint) ;;
      call_ (fontRenderer_precache fontRenderer paint mText mCount mat4_identity) ;;
      ret op
  | Bounded lb (DrawTextOp mText mBytesCount mCount mX mY mPositions mLength
                           mPrecacheTransform) =>
      paint <- getPaint op ;;
      fontRenderer <- call (getFontRenderer paint) ;;
      transform <- call_findBestFontTransform (mMatrix (state op)) ;;
      if negb (mat4_eqb mPrecacheTransform transform) then
        call_ (fontRenderer_precache fontRenderer paint mText mCount transform) ;;
        ret (mkDrawOp (state op) (mPaint op) (mQuickRejected op)
                      (Bounded lb (DrawTextOp mText mBytesCount mCount mX mY
                                              mPositions mLength transform)))
      else ret op
  | _ => ret op
  end.

(** [DrawOp::defer] *)
Definition DrawOp_defer (op : DrawOp) (saveCount level : int) : M DeferState DrawOp :=
  fun ds =>
    if mQuickRejected op && clipChildren (DeferStateStruct.mReplayFlags ds)
    then (op, ds)
    else
      let (exist, localBounds) := getLocalBounds op (mBounds (state op)) in
      (* empty bounds signify bounds can't be calculated *)
      let op' := set_mBounds (if exist then localBounds else setEmpty localBounds) op in
      let (st, ds') := deferred (addDrawOp op') ds in
      (DrawOp_with_state st op', ds').

(** [DrawOp::replay] *)
Definition DrawOp_replay (op : DrawOp) (saveCount level : int) : M ReplayState DrawOp :=
  fun rs =>
    if mQuickRejected op && clipChildren (ReplayStateStruct.mReplayFlags rs)
    then (op, rs)
    else
      let '((status, dirty), r) :=
        applyDraw op (ReplayStateStruct.mDirty rs) level
                  (ReplayStateStruct.mRenderer rs) in
      (op, ReplayStateStruct.mk r dirty (ReplayStateStruct.mReplayFlags rs)
             (Z.lor (ReplayStateStruct.mDrawGlStatus rs) status)).

(** [DrawDisplayListOp::defer]: [mDisplayList->defer(deferStruct, level + 1)]
    for a renderable list. *)
Definition DrawDisplayListOp_defer (mDisplayList : option DisplayList)
           (saveCount level : int) : M DeferState unit :=
  fun ds =>
    match mDisplayList with
    | Some displayList =>
        if isRenderable displayList then
          let r := DeferStateStruct.mRenderer ds in
          let (i, d) :=
            displayList_defer displayList (int_add level 1)
                              (DeferStateStruct.mReplayFlags ds) (impl r)
                              (DeferStateStruct.mDeferredList ds) in
          (tt, DeferStateStruct.mk d
                 (mkRenderer i (journal r ++ [DisplayList_defer displayList (int_add level 1)]))
                 (DeferStateStruct.mReplayFlags ds))
        else (tt, ds)
    | None => (tt, ds)
    end.

(** [DrawDisplayListOp::replay] *)
Definition DrawDisplayListOp_replay (mDisplayList : option DisplayList)
           (saveCount level : int) : M ReplayState unit :=
  fun rs =>
    match mDisplayList with
    | Some displayList =>
        if isRenderable displayList then
          let r := ReplayStateStruct.mRenderer rs in
          let '(i, dirty, status) :=
            displayList_replay displayList (int_add level 1)
                               (ReplayStateStruct.mReplayFlags rs) (impl r)
                               (ReplayStateStruct.mDirty rs)
                               (ReplayStateStruct.mDrawGlStatus rs) in
          (tt, ReplayStateStruct.mk
                 (mkRenderer i (journal r ++ [DisplayList_replay displayList (int_add level 1)]))
                 dirty (ReplayStateStruct.mReplayFlags rs) status)
        else (tt, rs)
    | None => (tt, rs)
    end.

(** *** Virtual dispatch *)

(** [op->defer(deferStruct, saveCount, level)] on a draw operation: the
    override of [DrawDisplayListOp], else [DrawOp::defer]. *)
Definition draw_defer (op : DrawOp) (saveCount level : int) : M DeferState DrawOp :=
  match drawClass op with
  | Bounded _ (DrawDisplayListOp mDisplayList _) =>
      DrawDisplayListOp_defer mDisplayList saveCount level ;; ret op
  | _ => DrawOp_defer op saveCount level
  end.

Definition draw_replay (op : DrawOp) (saveCount level : int) : M ReplayState DrawOp :=
  match drawClass op with
  | Bounded _ (DrawDisplayListOp mDisplayList _) =>
      DrawDisplayListOp_replay mDisplayList saveCount level ;; ret op
  | _ => DrawOp_replay op saveCount level
  end.

(** [op->defer(...)] and [op->replay(...)] on any operation; the operation
    as the call leaves it is handed back. *)
Definition defer (op : DisplayListOp) (saveCount level : int)
  : M DeferState DisplayListOp :=
  match op with
  | IsStateOp s => s' <- StateOp_defer s saveCount level ;; ret (IsStateOp s')
  | IsDrawOp d => d' <- draw_defer d saveCount level ;; ret (IsDrawOp d')
  end.

Definition replay (op : DisplayListOp) (saveCount level : int)
  : M ReplayState DisplayListOp :=
  match op with
  | IsStateOp s => StateOp_replay s saveCount level ;; ret (IsStateOp s)
  | IsDrawOp d => d' <- draw_replay d saveCount level ;; ret (IsDrawOp d')
  end.

(** [op->onDrawOpDeferred(renderer)] on any operation (state operations have
    no such hook). *)
Definition deferred_hook (op : DisplayListOp) : M Renderer_t DisplayListOp :=
  match op with
  | IsStateOp s => ret (IsStateOp s)
  | IsDrawOp d => d' <- onDrawOpDeferred d ;; ret (IsDrawOp d')
  end.

End Operations.

(** ** Constructors *)

(** Modelled from the spec: the state snapshot of a fresh operation, default
    constructed by a header that is not among the sources: empty bounds, the
    identity transform. *)
Definition fresh_state : DeferredDisplayState := mkState Rect_default mat4_identity.

(** [DrawOp(paint)]: [mPaint(paint), mQuickRejected(false)] *)
Definition new_DrawOp (paint : option SkPaint) (c : DrawOpClass) : DrawOp :=
  mkDrawOp fresh_state paint false c.

(** [DrawBoundedOp(left, top, right, bottom, paint)] *)
Definition new_DrawBoundedOp (l t r b : float) (paint : option SkPaint)
           (c : DrawBoundedOp) : DrawOp :=
  new_DrawOp paint (Bounded (mkRect l t r b) c).

(** [DrawBoundedOp(points, count, paint)]; nothing on a bad read. *)
Definition new_DrawBoundedOp_points (points : list float) (count : int)
           (paint : option SkPaint) (c : DrawBoundedOp) : option DrawOp :=
  option_map (fun bounds => new_DrawOp paint (Bounded bounds c))
             (DrawBoundedOp_points points count).

(** [DrawStrokableOp(left, top, right, bottom, paint)] and its subclasses. *)
Definition new_DrawStrokableOp (l t r b : float) (paint : option SkPaint)
           (s : DrawStrokableOp) : DrawOp :=
  new_DrawBoundedOp l t r b paint (Strokable s).

Definition new_DrawRectOp (l t r b : float) (paint : option SkPaint) : DrawOp :=
  new_DrawStrokableOp l t r b paint DrawRectOp.

Definition new_DrawRoundRectOp (l t r b rx ry : float) (paint : option SkPaint) : DrawOp :=
  new_DrawStrokableOp l t r b paint (DrawRoundRectOp rx ry).

Definition new_DrawCircleOp (x y radius : float) (paint : option SkPaint) : DrawOp :=
  new_DrawStrokableOp (fsub x radius) (fsub y radius) (fadd x radius) (fadd y radius)
                      paint (DrawCircleOp x y radius).

Definition new_DrawOvalOp (l t r b : float) (paint : option SkPaint) : DrawOp :=
  new_DrawStrokableOp l t r b paint DrawOvalOp.

Definition new_DrawArcOp (l t r b startAngle sweepAngle : float) (useCenter : bool)
           (paint : option SkPaint) : DrawOp :=
  new_DrawStrokableOp l t r b paint (DrawArcOp startAngle sweepAngle useCenter).

(** [DrawRectsOp(rects, count, paint)] *)
Definition new_DrawRectsOp (rects : list float) (count : int) (paint : option SkPaint)
  : option DrawOp :=
  new_DrawBoundedOp_points rects count paint (DrawRectsOp rects count).

(** [DrawLinesOp(points, count, paint)]: the body outsets the bounds by
    [strokeWidthOutset()], which reads through [mPaint]. *)
Definition new_DrawLinesOp (points : list float) (count : int) (paint : option SkPaint)
  : option DrawOp :=
  match DrawBoundedOp_points points count, paint with
  | Some bounds, Some p =>
      Some (new_DrawOp paint
              (Bounded (outset (strokeWidthOutset p) bounds) (DrawLinesOp points count)))
  | _, _ => None
  end.

(** [DrawPointsOp(points, count, paint) : DrawLinesOp(points, count, paint)] *)
Definition new_DrawPointsOp (points : list float) (count : int) (paint : option SkPaint)
  : option DrawOp :=
  match DrawBoundedOp_points points count, paint with
  | Some bounds, Some p =>
      Some (new_DrawOp paint
              (Bounded (outset (strokeWidthOutset p) bounds) (DrawPointsOp points count)))
  | _, _ => None
  end.

(** [DrawDisplayListOp(displayList, flags)]: the bounds are the declared size
    of the list, which the constructor reads through the pointer. *)
Definition new_DrawDisplayListOp (displayList : DisplayList) (flags : int) : DrawOp :=
  new_DrawBoundedOp fzero fzero (getWidth displayList) (getHeight displayList) None
                    (DrawDisplayListOp (Some displayList) flags).

(** [new (alloc) SaveOp(flags)] and the like: a state operation of a class. *)
Definition new_StateOp (c : StateOpClass) : StateOp := mkStateOp fresh_state c.

(** [ClipRegionOp(region, op)]: the private [mOp] keeps whatever the arena
    held. *)
Definition new_ClipRegionOp (region : handle) (op arena : SkRegionOp) : StateOp :=
  new_StateOp (ClipRegionOp op region arena).

(** ** A renderer and a deferred list that only keep count *)

(** The renderer state is its save count; drawing answers status 4 (drew);
    the deferred list is the list of what was registered, and it leaves the
    state of the operations it is handed as it finds it; a nested list, when
    deferred, registers one rectangle of its size, and when replayed draws
    it. *)
Definition nested_content (dl : DisplayList) : DrawOp :=
  new_DrawRectOp fzero fzero (getWidth dl) (getHeight dl) None.

(** The state of the operation a call hands to the deferred list. *)
Definition handed_state (c : DeferredCall) : DeferredDisplayState :=
  match c with
  | addSave op _ | addRestoreToCount op _ | addClip op | addSaveLayer op _ =>
      state_of_StateOp op
  | addDrawOp op => state op
  end.

Definition counting_renderer_do (c : RendererCall) (n : int) : int * int :=
  match c with
  | save _ => (n, n + 1)
  | saveLayer _ _ _ _ _ _ _ | saveLayerDeferred _ _ _ _ _ _ _ => (n, n + 1)
  | restoreToCount k => (0, k)
  | getSaveCount => (n, n)
  | translate _ _ | rotate _ | scale _ _ | skew _ _ | setMatrix _
  | concatMatrix _ | clipRect _ _ _ _ _ | clipPath _ _ | clipRegion _ _
  | resetShader | setupShader _ | resetColorFilter | setupColorFilter _
  | resetShadow | setupShadow _ _ _ _ | resetPaintFilter | setupPaintFilter _ _
  | filterPaint _ | findBestFontTransform _ | pathCache_precache _ _
  | getFontRenderer _ | fontRenderer_precache _ _ _ _ _
  | startMark _ | endMark => (0, n)
  | _ => (4, n)
  end.

#[export] Instance counting : Collaborators int (list DeferredCall) := {|
  renderer_do := counting_renderer_do;
  renderer_filterPaint := fun p n => (p, n);
  renderer_findBestFontTransform := fun m n => (m, n);
  renderer_callDrawGLFunction := fun _ dirty n => ((2, dirty), n);
  deferred_do := fun c n d => ((n, d ++ [c]), handed_state c);
  displayList_defer := fun dl _ _ n d => (n, d ++ [addDrawOp (nested_content dl)]);
  displayList_replay := fun dl _ _ n dirty status => (n, dirty, Z.lor status 4);
  kReplayFlag_ClipChildren := 1;
  kStatusDone := 0
|}.

(** Sample values. *)
Definition f1 : float := S754_finite false 8388608 (-23).
Definition f2 : float := S754_finite false 8388608 (-22).
Definition f3 : float := S754_finite false 12582912 (-22).
Definition fill_paint : SkPaint :=
  mkPaint f2 kFill_Style None false 4278190080 kLeft_Align.
Definition stroke_paint : SkPaint :=
  mkPaint f2 kStroke_Style None false 4278190080 kLeft_Align.
Definition fresh_renderer : OpenGLRenderer int := mkRenderer 1 [].
Definition fresh_deferStruct (flags : int) : DeferStateStruct.t int (list DeferredCall) :=
  DeferStateStruct.mk [] fresh_renderer flags.
Definition fresh_replayStruct (flags : int) : ReplayStateStruct.t int :=
  ReplayStateStruct.mk fresh_renderer Rect_default flags 0.
Definition small_list : DisplayList := mkDisplayList 1 f2 f2 true.

(** ** Vocabulary of the properties *)

(** [l] is below (resp. [u] above) every number of [xs]; NaNs are not
    numbers. *)
Definition lower (l : float) (xs : list float) : Prop :=
  forall x, In x xs -> is_nan x = false -> SFleb l x = true.
Definition upper (u : float) (xs : list float) : Prop :=
  forall x, In x xs -> is_nan x = false -> SFleb x u = true.

(** A rectangle bounds the coordinates seen so far. *)
Definition bounds_seen (b : Rect) (xs ys : list float) : Prop :=
  lower (left b) xs /\ upper (right b) xs /\ lower (top b) ys /\ upper (bottom b) ys.

(** "A paint is present and its style is not fill". *)
Definition stroked (paint : option SkPaint) : Prop :=
  exists p, paint = Some p /\ getStyle p <> kFill_Style.

Definition is_strokable (b : DrawBoundedOp) : bool :=
  match b with Strokable _ => true | _ => false end.

(** The draw operations that keep [DrawOp::defer] and [DrawOp::replay]: all
    but [DrawDisplayListOp], which overrides both. *)
Definition keeps_DrawOp_protocol (op : DrawOp) : bool :=
  match drawClass op with
  | Bounded _ (DrawDisplayListOp _ _) => false
  | _ => true
  end.

(** The bounds [DrawOp::defer] leaves in [state.mBounds]. *)
Definition deferred_bounds (op : DrawOp) : Rect :=
  let (exist, localBounds) := getLocalBounds op (mBounds (state op)) in
  if exist then localBounds else setEmpty localBounds.

(** An operation with the cache of [DrawTextOp] blanked, all else kept. *)
Definition forget_cache (op : DisplayListOp) : DisplayListOp :=
  match op with
  | IsStateOp s => IsStateOp s
  | IsDrawOp d =>
      IsDrawOp (mkDrawOp (state d) (mPaint d) (mQuickRejected d)
                         (blank_cache (drawClass d)))
  end.

(** The state snapshot of an operation. *)
Definition snapshot (op : DisplayListOp) : DeferredDisplayState :=
  match op with
  | IsStateOp s => state_of_StateOp s
  | IsDrawOp d => state d
  end.

Definition is_clip_call (c : RendererCall) : bool :=
  match c with
  | clipRect _ _ _ _ _ | clipPath _ _ | clipRegion _ _ => true
  | _ => false
  end.

(** The immediate [saveLayer] entry point, on the journal. *)
Definition is_saveLayer (c : Call) : bool :=
  match c with
  | Renderer (saveLayer _ _ _ _ _ _ _) => true
  | _ => false
  end.

(** More sample values. *)
Definition dashed (style : SkPaintStyle) (antiAlias : bool) : SkPaint :=
  mkPaint f2 style (Some 7) antiAlias 4278190080 kLeft_Align.
Definition sample_rect : DrawOp := new_DrawRectOp f1 f1 f3 f3 (Some fill_paint).
Definition sample_color : DrawOp := new_DrawOp None (DrawColorOp 255 3).
Definition sample_text : DrawOp :=
  new_DrawOp (Some fill_paint)
             (Bounded (mkRect f1 f1 f3 f3) (DrawTextOp 16 5 5 f1 f1 0 f2 mat4_all_ones)).
Definition sample_nested : DrawOp := new_DrawDisplayListOp small_list 0.
Definition empty_list : DisplayList := mkDisplayList 2 f2 f2 false.
Definition sample_skipped : DrawOp := new_DrawDisplayListOp empty_list 0.
Definition sample_clip : StateOp :=
  new_StateOp (ClipRectOp kIntersect_Op (mkRect f1 f1 f3 f3)).
Definition sample_saveLayer : StateOp :=
  new_StateOp (SaveLayerOp (mkRect f1 f1 f3 f3) 128 3 0).
Definition sample_restore : StateOp := new_StateOp (RestoreToCountOp 1).

(** ** Further members and constructors *)

Definition int_mul (a b : int) : int := wrap (a * b).

Definition SkRegionOp_eqb (a b : SkRegionOp) : bool :=
  match a, b with
  | kDifference_Op, kDifference_Op | kIntersect_Op, kIntersect_Op
  | kUnion_Op, kUnion_Op | kXOR_Op, kXOR_Op
  | kReverseDifference_Op, kReverseDifference_Op
  | kReplace_Op, kReplace_Op => true
  | _, _ => false
  end.

(** [ClipOp::isRect()]: false, overridden to true by [ClipRectOp]. *)
Definition isRect (op : StateOp) : bool :=
  match stateClass op with
  | ClipRectOp _ _ => true
  | _ => false
  end.

(** [ClipOp::mOp], the member the constructor of every clip class sets;
    nothing for the other state operations, which have no such member. *)
Definition ClipOp_mOp (op : StateOp) : option SkRegionOp :=
  match stateClass op with
  | ClipRectOp mOp _ | ClipPathOp mOp _ | ClipRegionOp mOp _ _ => Some mOp
  | _ => None
  end.

(** [ClipOp::canCauseComplexClip()], a member of the clip classes only. *)
Definition canCauseComplexClip (op : StateOp) : option bool :=
  option_map
    (fun mOp => (negb (SkRegionOp_eqb mOp kIntersect_Op)
                 && negb (SkRegionOp_eqb mOp kReplace_Op))
                || negb (isRect op))
    (ClipOp_mOp op).

(** [ClipRectOp(left, top, right, bottom, op)] and [ClipPathOp(path, op)] *)
Definition new_ClipRectOp (l t r b : float) (op : SkRegionOp) : StateOp :=
  new_StateOp (ClipRectOp op (mkRect l t r b)).
Definition new_ClipPathOp (path : handle) (op : SkRegionOp) : StateOp :=
  new_StateOp (ClipPathOp op path).

(** The constructors that hand [DrawOp] a null paint. *)
Definition new_DrawPatchOp (bitmap xDivs yDivs colors : handle) (width height : Z)
           (numColors : Z) (l t r b : float) (alpha : int) (mode : SkXfermodeMode)
  : DrawOp :=
  new_DrawBoundedOp l t r b None
    (DrawPatchOp bitmap xDivs yDivs colors width height numColors alpha mode).
Definition new_DrawColorOp (color : int) (mode : SkXfermodeMode) : DrawOp :=
  new_DrawOp None (DrawColorOp color mode).
Definition new_DrawFunctorOp (functor : handle) : DrawOp :=
  new_DrawOp None (DrawFunctorOp functor).
Definition new_DrawLayerOp (layer : handle) (x y : float) : DrawOp :=
  new_DrawOp None (DrawLayerOp layer x y).

(** [DrawBitmapMeshOp(bitmap, meshWidth, meshHeight, vertices, colors, paint)]:
    bounds over [2 * (meshWidth + 1) * (meshHeight + 1)] floats. *)
Definition new_DrawBitmapMeshOp (bitmap : handle) (meshWidth meshHeight : int)
           (vertices : list float) (colors : handle) (paint : option SkPaint)
  : option DrawOp :=
  new_DrawBoundedOp_points vertices
    (int_mul (int_mul 2 (int_add meshWidth 1)) (int_add meshHeight 1)) paint
    (DrawBitmapMeshOp bitmap meshWidth meshHeight vertices colors).

(** The classes whose [getBatchId] reads through [mPaint]. *)
Definition batch_reads_paint (c : DrawOpClass) : bool :=
  match c with
  | Bounded _ (Strokable _) | Bounded _ (DrawLinesOp _ _)
  | Bounded _ (DrawPointsOp _ _) | Bounded _ (DrawTextOp _ _ _ _ _ _ _ _)
  | DrawTextOnPathOp _ _ _ _ _ _ | DrawPosTextOp _ _ _ _ => true
  | _ => false
  end.

(** The classes that override [onDrawOpDeferred]. *)
Definition overrides_hook (c : DrawOpClass) : bool :=
  match c with
  | Bounded _ (DrawPathOp _) | Bounded _ (DrawTextOp _ _ _ _ _ _ _ _)
  | DrawTextOnPathOp _ _ _ _ _ _ | DrawPosTextOp _ _ _ _ => true
  | _ => false
  end.

Definition is_DrawFunctorOp (c : DrawOpClass) : bool :=
  match c with DrawFunctorOp _ => true | _ => false end.

(** The state operations that keep [StateOp::defer]: all but save, restore,
    save layer and the clips. *)
Definition keeps_StateOp_defer (op : StateOp) : bool :=
  match stateClass op with
  | SaveOp _ | RestoreToCountOp _ | SaveLayerOp _ _ _ _
  | ClipRectOp _ _ | ClipPathOp _ _ | ClipRegionOp _ _ _ => false
  | _ => true
  end.

Definition is_RestoreToCountOp (op : StateOp) : bool :=
  match stateClass op with RestoreToCountOp _ => true | _ => false end.

(** A rectangle lies inside another (edges compared as floats). *)
Definition rect_inside (inner outer : Rect) : Prop :=
  SFleb (left outer) (left inner) = true /\ SFleb (right inner) (right outer) = true
  /\ SFleb (top outer) (top inner) = true /\ SFleb (bottom inner) (bottom outer) = true.

(** Every edge of the rectangle is a coordinate of one of the points. *)
Definition edges_attained (b : Rect) (pts : list (float * float)) : Prop :=
  In (left b) (map fst pts) /\ In (right b) (map fst pts)
  /\ In (top b) (map snd pts) /\ In (bottom b) (map snd pts).

(** * Properties *)

(** ** Machine integers *)

Lemma wrap_in_int (z : Z) : in_int z -> wrap z = z.
Proof.
  unfold in_int, INT_MIN, INT_MAX, wrap. intros Hz.
  rewrite Z.mod_small; lia.
Qed.

(** ** Order of floats *)

Ltac float_cases a b :=
  destruct a as [[]|[]| |[] ?m ?e], b as [[]|[]| |[] ?m ?e];
  simpl; try discriminate; intros _ _.

Ltac compare_cases :=
  repeat match goal with
  | |- context [Pos.compare_cont Eq ?m ?n] =>
      change (Pos.compare_cont Eq m n) with (Pos.compare m n);
      destruct (Pos.compare_spec m n)
  | |- context [Z.compare ?m ?n] => destruct (Z.compare_spec m n)
  end.

Ltac open_keys :=
  unfold lex_le, lex_lt in *;
  repeat match goal with
  | H : context [order_key ?a] |- _ =>
      let k1 := fresh "k" in let k2 := fresh "k" in let k3 := fresh "k" in
      destruct (order_key a) as [[k1 k2] k3]
  | |- context [order_key ?a] =>
      let k1 := fresh "k" in let k2 := fresh "k" in let k3 := fresh "k" in
      destruct (order_key a) as [[k1 k2] k3]
  end.

Lemma SFleb_key (a b : float) :
  is_nan a = false -> is_nan b = false ->
  (SFleb a b = true <-> lex_le (order_key a) (order_key b)).
Proof.
  float_cases a b; unfold SFleb; simpl; compare_cases; simpl;
    split; intros; try discriminate; try reflexivity; lia.
Qed.

Lemma SFltb_key (a b : float) :
  is_nan a = false -> is_nan b = false ->
  (SFltb a b = true <-> lex_lt (order_key a) (order_key b)).
Proof.
  float_cases a b; unfold SFltb; simpl; compare_cases; simpl;
    split; intros; try discriminate; try reflexivity; lia.
Qed.

Lemma SFleb_not_nan (a b : float) :
  SFleb a b = true -> is_nan a = false /\ is_nan b = false.
Proof.
  unfold SFleb; destruct a, b; simpl; try discriminate; auto.
Qed.

Lemma SFleb_refl (x : float) : is_nan x = false -> SFleb x x = true.
Proof.
  intros Hx. apply SFleb_key; trivial. open_keys. lia.
Qed.

Lemma SFleb_trans (a b c : float) :
  SFleb a b = true -> SFleb b c = true -> SFleb a c = true.
Proof.
  intros Hab Hbc.
  destruct (SFleb_not_nan _ _ Hab) as [Ha Hb].
  destruct (SFleb_not_nan _ _ Hbc) as [_ Hc].
  apply SFleb_key in Hab; trivial. apply SFleb_key in Hbc; trivial.
  apply SFleb_key; trivial. open_keys. lia.
Qed.

Lemma SFltb_leb (a b : float) :
  is_nan a = false -> is_nan b = false -> SFltb a b = true -> SFleb a b = true.
Proof.
  intros Ha Hb Hlt. apply SFltb_key in Hlt; trivial. apply SFleb_key; trivial.
  open_keys. lia.
Qed.

Lemma SFleb_total (a b : float) :
  is_nan a = false -> is_nan b = false -> SFltb a b = false -> SFleb b a = true.
Proof.
  intros Ha Hb Hlt. apply SFleb_key; trivial.
  assert (~ lex_lt (order_key a) (order_key b)) as N.
  { intros L. apply SFltb_key in L; trivial. congruence. }
  open_keys. lia.
Qed.

(** ** [fminf], [fmaxf] and the bounds they accumulate *)

Lemma fminf_nan_l (y : float) : fminf S754_nan y = y.
Proof. reflexivity. Qed.

Lemma fminf_nan_r (x : float) : fminf x S754_nan = x.
Proof. destruct x; reflexivity. Qed.

Lemma fminf_numbers (x y : float) :
  is_nan x = false -> is_nan y = false ->
  fminf x y = if SFltb x y then x else y.
Proof. destruct x, y; simpl; try discriminate; reflexivity. Qed.

Lemma fmaxf_nan_r (x : float) : fmaxf x S754_nan = x.
Proof. destruct x; reflexivity. Qed.

Lemma fmaxf_numbers (x y : float) :
  is_nan x = false -> is_nan y = false ->
  fmaxf x y = if SFltb x y then y else x.
Proof. destruct x, y; simpl; try discriminate; reflexivity. Qed.

Lemma lower_nan (l : float) (xs : list float) :
  is_nan l = true -> lower l xs -> forall x, In x xs -> is_nan x = true.
Proof.
  intros Hl Hlow x Hin. destruct (is_nan x) eqn:Hx; trivial.
  destruct (SFleb_not_nan _ _ (Hlow x Hin Hx)). congruence.
Qed.

Lemma upper_nan (u : float) (xs : list float) :
  is_nan u = true -> upper u xs -> forall x, In x xs -> is_nan x = true.
Proof.
  intros Hu Hup x Hin. destruct (is_nan x) eqn:Hx; trivial.
  destruct (SFleb_not_nan _ _ (Hup x Hin Hx)). congruence.
Qed.

Lemma fminf_lower (l x : float) (xs : list float) :
  lower l xs -> lower (fminf l x) (x :: xs).
Proof.
  intros Hlow z Hin Hz.
  destruct (is_nan l) eqn:Hl.
  - destruct l; try discriminate. rewrite fminf_nan_l.
    destruct Hin as [->|Hin]; [now apply SFleb_refl|].
    apply (lower_nan S754_nan xs) in Hin; trivial. congruence.
  - destruct (is_nan x) eqn:Hx.
    + destruct x; try discriminate. rewrite fminf_nan_r.
      destruct Hin as [<-|Hin]; [discriminate | now apply Hlow].
    + rewrite fminf_numbers by trivial.
      destruct (SFltb l x) eqn:Hlt.
      * destruct Hin as [<-|Hin]; [now apply SFltb_leb | now apply Hlow].
      * destruct Hin as [<-|Hin]; [now apply SFleb_refl|].
        apply SFleb_trans with l; [now apply SFleb_total | now apply Hlow].
Qed.

Lemma fmaxf_upper (u x : float) (xs : list float) :
  upper u xs -> upper (fmaxf u x) (x :: xs).
Proof.
  intros Hup z Hin Hz.
  destruct (is_nan u) eqn:Hu.
  - destruct u; try discriminate. simpl.
    destruct Hin as [->|Hin]; [now apply SFleb_refl|].
    apply (upper_nan S754_nan xs) in Hin; trivial. congruence.
  - destruct (is_nan x) eqn:Hx.
    + destruct x; try discriminate. rewrite fmaxf_nan_r.
      destruct Hin as [<-|Hin]; [discriminate | now apply Hup].
    + rewrite fmaxf_numbers by trivial.
      destruct (SFltb u x) eqn:Hlt.
      * destruct Hin as [<-|Hin]; [now apply SFleb_refl|].
        apply SFleb_trans with u; [now apply Hup | now apply SFltb_leb].
      * destruct Hin as [<-|Hin]; [now apply SFleb_total | now apply Hup].
Qed.

Lemma include_point_seen (b : Rect) (x y : float) (xs ys : list float) :
  bounds_seen b xs ys -> bounds_seen (include_point b x y) (x :: xs) (y :: ys).
Proof.
  intros (Hl & Hr & Ht & Hb). unfold include_point, bounds_seen; simpl.
  auto using fminf_lower, fmaxf_upper.
Qed.

Lemma fold_include_seen (rest : list (float * float)) :
  forall (b : Rect) (xs ys : list float),
    bounds_seen b xs ys ->
    bounds_seen (fold_left (fun b p => include_point b (fst p) (snd p)) rest b)
                (rev (map fst rest) ++ xs) (rev (map snd rest) ++ ys).
Proof.
  induction rest as [|[x y] rest IH]; intros b xs ys Hseen; simpl; trivial.
  rewrite <- !app_assoc. simpl. apply IH. now apply include_point_seen.
Qed.

Lemma first_point_seen (x y : float) : bounds_seen (mkRect x y x y) [x] [y].
Proof.
  unfold bounds_seen, lower, upper; simpl.
  repeat split; intros z [<-|[]] Hz; now apply SFleb_refl.
Qed.

(** ** The loop of the point-list constructor *)

Lemma flatten_points_length (pts : list (float * float)) :
  List.length (flatten_points pts) = (2 * List.length pts)%nat.
Proof.
  unfold flatten_points. induction pts as [|p pts IH]; simpl; lia.
Qed.

Lemma flatten_points_app (pre suf : list (float * float)) :
  flatten_points (pre ++ suf) = flatten_points pre ++ flatten_points suf.
Proof. unfold flatten_points. apply flat_map_app. Qed.

Lemma points_get_at (pre suf : list (float * float)) (p : float * float) :
  points_get (flatten_points (pre ++ p :: suf)) (2 * Z.of_nat (List.length pre))
    = Some (fst p)
  /\ points_get (flatten_points (pre ++ p :: suf)) (2 * Z.of_nat (List.length pre) + 1)
    = Some (snd p).
Proof.
  unfold points_get.
  assert ((2 * Z.of_nat (List.length pre) <? 0) = false) as -> by (apply Z.ltb_ge; lia).
  assert ((2 * Z.of_nat (List.length pre) + 1 <? 0) = false) as -> by (apply Z.ltb_ge; lia).
  rewrite flatten_points_app.
  replace (Z.to_nat (2 * Z.of_nat (List.length pre)))
    with (List.length (flatten_points pre) + 0)%nat
    by (rewrite flatten_points_length; lia).
  replace (Z.to_nat (2 * Z.of_nat (List.length pre) + 1))
    with (List.length (flatten_points pre) + 1)%nat
    by (rewrite flatten_points_length; lia).
  rewrite !nth_error_app2 by lia.
  replace (List.length (flatten_points pre) + 0 - List.length (flatten_points pre))%nat
    with 0%nat by lia.
  replace (List.length (flatten_points pre) + 1 - List.length (flatten_points pre))%nat
    with 1%nat by lia.
  split; reflexivity.
Qed.

Lemma bounds_loop_fold (suf : list (float * float)) :
  forall (pre : list (float * float)) (fuel : nat) (b : Rect),
    (List.length suf <= fuel)%nat ->
    2 * Z.of_nat (List.length (pre ++ suf)) <= INT_MAX ->
    bounds_loop fuel (flatten_points (pre ++ suf))
                (2 * Z.of_nat (List.length (pre ++ suf)))
                (2 * Z.of_nat (List.length pre)) b
    = Some (fold_left (fun b p => include_point b (fst p) (snd p)) suf b).
Proof.
  induction suf as [|p suf IH]; intros pre fuel b Hfuel Hmax.
  - rewrite app_nil_r. destruct fuel; simpl; rewrite Z.ltb_irrefl; reflexivity.
  - destruct fuel as [|fuel]; [simpl in Hfuel; lia|].
    cbn [bounds_loop].
    assert ((2 * Z.of_nat (List.length pre)
             <? 2 * Z.of_nat (List.length (pre ++ p :: suf))) = true) as ->.
    { apply Z.ltb_lt. rewrite length_app. cbn [List.length]. lia. }
    destruct (points_get_at pre suf p) as [-> ->].
    assert (int_add (2 * Z.of_nat (List.length pre)) 2
            = 2 * Z.of_nat (List.length (pre ++ [p]))) as ->.
    { unfold int_add. rewrite wrap_in_int.
      - rewrite length_app. cbn [List.length]. lia.
      - rewrite length_app in Hmax. cbn [List.length] in Hmax.
        unfold in_int, INT_MIN, INT_MAX in *. lia. }
    replace (pre ++ p :: suf) with ((pre ++ [p]) ++ suf)
      by (rewrite <- app_assoc; reflexivity).
    apply IH.
    + cbn [List.length] in Hfuel. lia.
    + rewrite <- app_assoc. exact Hmax.
Qed.

Lemma DrawBoundedOp_points_fold (p0 : float * float) (rest : list (float * float)) :
  2 * Z.of_nat (List.length (p0 :: rest)) <= INT_MAX ->
  DrawBoundedOp_points (flatten_points (p0 :: rest))
                       (2 * Z.of_nat (List.length (p0 :: rest)))
  = bounding_box (p0 :: rest).
Proof.
  intros Hmax. unfold DrawBoundedOp_points.
  destruct (points_get_at [] rest p0) as [H0 H1].
  change (points_get (flatten_points (p0 :: rest)) 0 = Some (fst p0)) in H0.
  change (points_get (flatten_points (p0 :: rest)) 1 = Some (snd p0)) in H1.
  rewrite H0, H1. destruct p0 as [x0 y0]. cbn [fst snd bounding_box].
  apply (bounds_loop_fold rest [(x0, y0)]); trivial.
  rewrite flatten_points_length. cbn [List.length]. lia.
Qed.

Lemma bounds_seen_contains (b : Rect) (xs ys : list float) (x y : float) :
  bounds_seen b xs ys -> In x xs -> In y ys ->
  is_nan x = false -> is_nan y = false -> contains_point b x y = true.
Proof.
  intros (Hl & Hr & Ht & Hb) Hx Hy Nx Ny. unfold contains_point.
  rewrite (Hl x), (Hr x), (Ht y), (Hb y); trivial.
Qed.

(** C8 (amended): for a list of N >= 1 points given as 2N floats, the
    point-list constructor of DrawBoundedOp reads no float outside the array
    and leaves the rectangle obtained by starting from the first point and
    folding every following point with component-wise fminf/fmaxf; that
    rectangle contains every point of the list whose two coordinates are
    numbers (not NaN), and for N = 1 it is the degenerate rectangle of the
    single point. *)
Theorem DrawBoundedOp_points_bounds
        (p0 : float * float) (rest : list (float * float)) :
  2 * Z.of_nat (List.length (p0 :: rest)) <= INT_MAX ->
  exists b : Rect,
    DrawBoundedOp_points (flatten_points (p0 :: rest))
                         (2 * Z.of_nat (List.length (p0 :: rest))) = Some b
    /\ bounding_box (p0 :: rest) = Some b
    /\ (forall x y, In (x, y) (p0 :: rest) ->
                    is_nan x = false -> is_nan y = false ->
                    contains_point b x y = true)
    /\ (rest = [] -> b = mkRect (fst p0) (snd p0) (fst p0) (snd p0)).
Proof.
  intros Hmax. rewrite (DrawBoundedOp_points_fold p0 rest Hmax).
  destruct p0 as [x0 y0]. cbn [bounding_box fst snd].
  eexists. split; [reflexivity|]. split; [reflexivity|]. split.
  - intros x y Hin Nx Ny.
    pose proof (fold_include_seen rest _ _ _ (first_point_seen x0 y0)) as Hseen.
    apply (bounds_seen_contains _ _ _ x y Hseen); trivial.
    + destruct Hin as [E|Hin].
      * inversion E; subst. apply in_or_app. right. now left.
      * apply in_or_app. left. apply -> in_rev. apply (in_map fst _ _ Hin).
    + destruct Hin as [E|Hin].
      * inversion E; subst. apply in_or_app. right. now left.
      * apply in_or_app. left. apply -> in_rev. apply (in_map snd _ _ Hin).
  - intros ->. reflexivity.
Qed.

Lemma DrawBoundedOp_points_bounds_witness :
  exists b : Rect,
    DrawBoundedOp_points [f1; f3; f2; f1] 4 = Some b
    /\ bounding_box [(f1, f3); (f2, f1)] = Some b
    /\ (forall x y, In (x, y) [(f1, f3); (f2, f1)] ->
                    is_nan x = false -> is_nan y = false ->
                    contains_point b x y = true)
    /\ ([(f2, f1)] = [] -> b = mkRect f1 f3 f1 f3).
Proof.
  apply (DrawBoundedOp_points_bounds (f1, f3) [(f2, f1)]).
  vm_compute. discriminate.
Defined.

(** C8, as stated, fails on a point with a NaN coordinate: [fminf] and
    [fmaxf] skip the NaN, and no comparison with it holds. The points are
    (1, 1) and (NaN, 3). *)
Lemma DrawBoundedOp_points_skips_nan :
  DrawBoundedOp_points [f1; f1; S754_nan; f3] 4 = Some (mkRect f1 f1 f1 f3)
  /\ In (S754_nan, f3) [(f1, f1); (S754_nan, f3)]
  /\ contains_point (mkRect f1 f1 f1 f3) S754_nan f3 = false.
Proof.
  split; [reflexivity|]. split; [right; left; reflexivity | reflexivity].
Qed.

(** ** Local bounds and stroke *)

Lemma SkPaintStyle_eqb_eq (a b : SkPaintStyle) :
  SkPaintStyle_eqb a b = true <-> a = b.
Proof. destruct a, b; simpl; split; intros E; try reflexivity; discriminate. Qed.

Lemma getLocalBounds_stroked (op : DrawOp) (lb : Rect) (s : DrawStrokableOp)
      (p : SkPaint) (x : Rect) :
  drawClass op = Bounded lb (Strokable s) -> mPaint op = Some p ->
  getStyle p <> kFill_Style ->
  getLocalBounds op x = (true, outset (fmul (getStrokeWidth p) fhalf) lb).
Proof.
  intros Hc Hp Hs. unfold getLocalBounds. rewrite Hc, Hp.
  destruct (SkPaintStyle_eqb (getStyle p) kFill_Style) eqn:E; [|reflexivity].
  apply SkPaintStyle_eqb_eq in E. contradiction.
Qed.

Lemma getLocalBounds_not_stroked (op : DrawOp) (lb : Rect) (s : DrawStrokableOp)
      (x : Rect) :
  drawClass op = Bounded lb (Strokable s) -> ~ stroked (mPaint op) ->
  getLocalBounds op x = (true, lb).
Proof.
  intros Hc Hn. unfold getLocalBounds. rewrite Hc.
  destruct (mPaint op) as [p|]; [|reflexivity].
  destruct (SkPaintStyle_eqb (getStyle p) kFill_Style) eqn:E; [reflexivity|].
  exfalso. apply Hn. exists p. split; [reflexivity|].
  intros F. apply SkPaintStyle_eqb_eq in F. congruence.
Qed.

(** C9: a stroke-capable operation stores the bounds it was constructed with,
    before any outsetting (for the circle: centre minus and plus radius), and
    its getLocalBounds hands out those bounds outset by half the stroke width
    of the paint when a paint is present and its style is not fill, and the
    stored bounds themselves otherwise; the other bounded operations hand out
    their stored bounds untouched, and operations without bounds report
    none. The line list, which is always stroked, outsets its stored bounds
    itself, in its constructor. *)
Theorem DrawStrokableOp_getLocalBounds
        (l t r b : float) (paint : option SkPaint) (s : DrawStrokableOp) (x : Rect) :
  drawClass (new_DrawStrokableOp l t r b paint s) = Bounded (mkRect l t r b) (Strokable s)
  /\ (forall radius, drawClass (new_DrawCircleOp l t radius paint)
        = Bounded (mkRect (fsub l radius) (fsub t radius) (fadd l radius) (fadd t radius))
                  (Strokable (DrawCircleOp l t radius)))
  /\ (forall (op : DrawOp) (lb : Rect),
        drawClass op = Bounded lb (Strokable s) ->
        (forall p, mPaint op = Some p -> getStyle p <> kFill_Style ->
           getLocalBounds op x = (true, outset (fmul (getStrokeWidth p) fhalf) lb))
        /\ (~ stroked (mPaint op) -> getLocalBounds op x = (true, lb)))
  /\ (forall (op : DrawOp) (lb : Rect) (c : DrawBoundedOp),
        drawClass op = Bounded lb c -> is_strokable c = false ->
        getLocalBounds op x = (true, lb))
  /\ (forall (op : DrawOp),
        (forall lb c, drawClass op <> Bounded lb c) ->
        getLocalBounds op x = (false, x))
  /\ (forall (points : list float) (count : int) (p : SkPaint) (pb : Rect),
        DrawBoundedOp_points points count = Some pb ->
        option_map drawClass (new_DrawLinesOp points count (Some p))
        = Some (Bounded (outset (fmul (getStrokeWidth p) fhalf) pb)
                        (DrawLinesOp points count))).
Proof.
  split; [reflexivity|]. split; [reflexivity|]. split; [|split; [|split]].
  - intros op lb Hc. split.
    + intros p Hp Hs. now apply getLocalBounds_stroked with s.
    + intros Hn. now apply getLocalBounds_not_stroked with s.
  - intros op lb c Hc Hs. unfold getLocalBounds. rewrite Hc.
    destruct c; try reflexivity; discriminate.
  - intros op Hc. unfold getLocalBounds.
    destruct (drawClass op) eqn:E; try reflexivity.
    exfalso. apply (Hc mLocalBounds b0). reflexivity.
  - intros points count p pb Hb. unfold new_DrawLinesOp. rewrite Hb. reflexivity.
Qed.

Lemma DrawStrokableOp_getLocalBounds_witness :
  getLocalBounds (new_DrawRectOp f1 f1 f3 f3 (Some stroke_paint)) Rect_default
  = (true, mkRect fzero fzero (fadd f3 f1) (fadd f3 f1))
  /\ getLocalBounds (new_DrawRectOp f1 f1 f3 f3 (Some fill_paint)) Rect_default
  = (true, mkRect f1 f1 f3 f3)
  /\ getLocalBounds (new_DrawRectOp f1 f1 f3 f3 None) Rect_default
  = (true, mkRect f1 f1 f3 f3).
Proof.
  pose proof (DrawStrokableOp_getLocalBounds f1 f1 f3 f3 None DrawRectOp Rect_default)
    as (_ & _ & H & _ & _ & _).
  split; [|split].
  - destruct (H (new_DrawRectOp f1 f1 f3 f3 (Some stroke_paint)) (mkRect f1 f1 f3 f3)
                eq_refl) as [Hs _].
    rewrite (Hs stroke_paint eq_refl); [reflexivity | discriminate].
  - destruct (H (new_DrawRectOp f1 f1 f3 f3 (Some fill_paint)) (mkRect f1 f1 f3 f3)
                eq_refl) as [_ Hn].
    apply Hn. intros (p & E & N). inversion E; subst. apply N. reflexivity.
  - destruct (H (new_DrawRectOp f1 f1 f3 f3 None) (mkRect f1 f1 f3 f3) eq_refl)
      as [_ Hn].
    apply Hn. intros (p & E & N). discriminate.
Defined.

(** ** Batch classification *)

(** C10 (amended): an operation of the DrawStrokableOp family (rect, round
    rect, circle, oval, arc) whose paint has a non-null path effect reports
    the alpha-mask-texture batch id, whatever the antialiasing flag and the
    style of the paint; with no path effect it reports the antialiased
    vertices batch id when antialiasing is on and the plain vertices batch id
    when it is off, whatever the style. Lines and points never look at the
    path effect: they report by the antialiasing flag alone. *)
Theorem DrawStrokableOp_getBatchId
        (op : DrawOp) (lb : Rect) (p : SkPaint) :
  mPaint op = Some p ->
  (forall s, drawClass op = Bounded lb (Strokable s) ->
     (getPathEffect p <> None -> getBatchId op = Some kOpBatch_AlphaMaskTexture)
     /\ (getPathEffect p = None -> isAntiAlias p = true ->
         getBatchId op = Some kOpBatch_AlphaVertices)
     /\ (getPathEffect p = None -> isAntiAlias p = false ->
         getBatchId op = Some kOpBatch_Vertices))
  /\ (forall points count,
        drawClass op = Bounded lb (DrawLinesOp points count)
        \/ drawClass op = Bounded lb (DrawPointsOp points count) ->
        getBatchId op = Some (if isAntiAlias p then kOpBatch_AlphaVertices
                              else kOpBatch_Vertices)).
Proof.
  intros Hp. split.
  - intros s Hc. unfold getBatchId, antiAlias_batch. rewrite Hc, Hp.
    repeat split.
    + destruct (getPathEffect p); [reflexivity | congruence].
    + intros -> ->. reflexivity.
    + intros -> ->. reflexivity.
  - intros points count [Hc|Hc]; unfold getBatchId, antiAlias_batch;
      rewrite Hc, Hp; reflexivity.
Qed.

Lemma DrawStrokableOp_getBatchId_witness :
  getBatchId (new_DrawRectOp f1 f1 f3 f3 (Some (dashed kStroke_Style true)))
  = Some kOpBatch_AlphaMaskTexture
  /\ getBatchId (new_DrawRectOp f1 f1 f3 f3 (Some fill_paint)) = Some kOpBatch_Vertices.
Proof.
  split.
  - destruct (DrawStrokableOp_getBatchId
                (new_DrawRectOp f1 f1 f3 f3 (Some (dashed kStroke_Style true)))
                (mkRect f1 f1 f3 f3) (dashed kStroke_Style true) eq_refl) as [H _].
    destruct (H DrawRectOp eq_refl) as (Hm & _ & _). apply Hm. discriminate.
  - destruct (DrawStrokableOp_getBatchId
                (new_DrawRectOp f1 f1 f3 f3 (Some fill_paint))
                (mkRect f1 f1 f3 f3) fill_paint eq_refl) as [H _].
    destruct (H DrawRectOp eq_refl) as (_ & _ & Hv). apply Hv; reflexivity.
Defined.

(** C10, as stated, fails twice: a fill-style rectangle with antialiasing on
    and a path effect reports the alpha-mask-texture id, not the antialiased
    vertices id; and a stroke-style line list with a path effect reports the
    antialiased vertices id, not the alpha-mask-texture id. *)
Lemma getBatchId_path_effect_first :
  getStyle (dashed kFill_Style true) = kFill_Style
  /\ isAntiAlias (dashed kFill_Style true) = true
  /\ getBatchId (new_DrawRectOp f1 f1 f3 f3 (Some (dashed kFill_Style true)))
     = Some kOpBatch_AlphaMaskTexture
  /\ getStyle (dashed kStroke_Style true) = kStroke_Style
  /\ getPathEffect (dashed kStroke_Style true) <> None
  /\ option_map getBatchId
       (new_DrawLinesOp [f1; f1; f3; f3] 4 (Some (dashed kStroke_Style true)))
     = Some (Some kOpBatch_AlphaVertices).
Proof.
  repeat split; try reflexivity. discriminate.
Qed.

(** ** The two passes, for any renderer and any deferred list *)

Section Passes.
Context {R D : Type} `{Collaborators R D}.

Local Abbreviation DeferState := (DeferStateStruct.t R D).
Local Abbreviation ReplayState := (ReplayStateStruct.t R).

Ltac unfold_pass :=
  unfold defer, replay, deferred_hook, draw_defer, draw_replay, StateOp_defer,
    StateOp_replay, DrawOp_defer, DrawOp_replay, DrawDisplayListOp_defer,
    DrawDisplayListOp_replay, onDrawOpDeferred, applyDraw, draw_with_paint,
    applyState, on_deferStruct_mRenderer, on_replayStruct_mRenderer, deferred,
    call_callDrawGLFunction, call_findBestFontTransform, getPaint, call_, call,
    bind, ret in *.

(** Name the answer of every collaborator call, innermost first. *)
Ltac no_call t :=
  lazymatch t with
  | context [renderer_do _ _] => fail
  | context [renderer_filterPaint _ _] => fail
  | context [renderer_findBestFontTransform _ _] => fail
  | context [renderer_callDrawGLFunction _ _ _] => fail
  | context [deferred_do _ _ _] => fail
  | context [displayList_defer _ _ _ _ _] => fail
  | context [displayList_replay _ _ _ _ _ _] => fail
  | _ => idtac
  end.

Ltac reduce_pass :=
  cbn [fst snd impl journal stateClass StateOp_with_state
       DeferStateStruct.mRenderer DeferStateStruct.mDeferredList
       DeferStateStruct.mReplayFlags ReplayStateStruct.mRenderer
       ReplayStateStruct.mDirty ReplayStateStruct.mReplayFlags
       ReplayStateStruct.mDrawGlStatus].

Ltac answer_calls :=
  repeat (match goal with
          | |- context [renderer_do ?c ?r] =>
              no_call c; no_call r; destruct (renderer_do c r)
          | |- context [renderer_filterPaint ?p ?r] =>
              no_call r; destruct (renderer_filterPaint p r)
          | |- context [renderer_findBestFontTransform ?m ?r] =>
              no_call r; destruct (renderer_findBestFontTransform m r)
          | |- context [renderer_callDrawGLFunction ?f ?d ?r] =>
              no_call d; no_call r;
              destruct (renderer_callDrawGLFunction f d r) as [[? ?] ?]
          | |- context [deferred_do ?c ?r ?d] =>
              no_call c; no_call r; no_call d;
              destruct (deferred_do c r d) as [[? ?] ?]
          | |- context [displayList_defer ?l ?a ?b ?r ?d] =>
              no_call r; no_call d; destruct (displayList_defer l a b r d)
          | |- context [displayList_replay ?l ?a ?b ?r ?d ?s] =>
              no_call r; no_call d; no_call s;
              destruct (displayList_replay l a b r d s) as [[? ?] ?]
          end; reduce_pass).

Lemma draw_defer_kept (op : DrawOp) (saveCount level : int) :
  keeps_DrawOp_protocol op = true ->
  draw_defer op saveCount level = DrawOp_defer op saveCount level.
Proof.
  unfold keeps_DrawOp_protocol, draw_defer.
  destruct (drawClass op) as [lb []| | | | |]; try reflexivity. discriminate.
Qed.

Lemma draw_replay_kept (op : DrawOp) (saveCount level : int) :
  keeps_DrawOp_protocol op = true ->
  draw_replay op saveCount level = DrawOp_replay op saveCount level.
Proof.
  unfold keeps_DrawOp_protocol, draw_replay.
  destruct (drawClass op) as [lb []| | | | |]; try reflexivity. discriminate.
Qed.

(** C1 (amended): for every draw operation that keeps DrawOp::defer and
    DrawOp::replay (all but the nested-list operation, which overrides both
    and does not look at the flag): when its quickRejected flag is set and the
    replay flags of the pass include the clip-children flag, defer and replay
    hand back the operation and the pass state exactly as they were (so no
    call reached the renderer or the batch buffer, and the draw status is the
    same); when the clip-children flag is absent, whatever the quickRejected
    flag, defer stores the local bounds and registers the operation with
    addDrawOp (which may fill in the rest of the state), and replay runs
    applyDraw and ors its status into the accumulator. *)
Theorem DrawOp_quick_reject
        (op : DrawOp) (saveCount level : int) (ds : DeferState) (rs : ReplayState) :
  keeps_DrawOp_protocol op = true ->
  (mQuickRejected op = true ->
   clipChildren (DeferStateStruct.mReplayFlags ds) = true ->
   draw_defer op saveCount level ds = (op, ds))
  /\ (mQuickRejected op = true ->
      clipChildren (ReplayStateStruct.mReplayFlags rs) = true ->
      draw_replay op saveCount level rs = (op, rs))
  /\ (clipChildren (DeferStateStruct.mReplayFlags ds) = false ->
      let op' := set_mBounds (deferred_bounds op) op in
      let registered := deferred (addDrawOp op') ds in
      draw_defer op saveCount level ds
      = (DrawOp_with_state (fst registered) op', snd registered)
      /\ journal (DeferStateStruct.mRenderer (snd (draw_defer op saveCount level ds)))
         = journal (DeferStateStruct.mRenderer ds) ++ [Deferred (addDrawOp op')])
  /\ (clipChildren (ReplayStateStruct.mReplayFlags rs) = false ->
      let drawn := applyDraw op (ReplayStateStruct.mDirty rs) level
                             (ReplayStateStruct.mRenderer rs) in
      draw_replay op saveCount level rs
      = (op, ReplayStateStruct.mk (snd drawn) (snd (fst drawn))
               (ReplayStateStruct.mReplayFlags rs)
               (Z.lor (ReplayStateStruct.mDrawGlStatus rs) (fst (fst drawn))))).
Proof.
  intros Hk. rewrite (draw_defer_kept op saveCount level Hk).
  rewrite (draw_replay_kept op saveCount level Hk).
  unfold DrawOp_defer, DrawOp_replay, deferred_bounds.
  split; [|split; [|split]].
  - intros -> ->. reflexivity.
  - intros -> ->. reflexivity.
  - intros Hc. cbv zeta. rewrite Hc, andb_false_r.
    destruct (getLocalBounds op (mBounds (state op))) as [exist lb].
    unfold deferred. reduce_pass. answer_calls. split; reflexivity.
  - intros Hc. cbv zeta. rewrite Hc, andb_false_r.
    destruct (applyDraw op _ level _) as [[status dirty] r]. reflexivity.
Qed.

(** *** What the passes write into an operation *)

Lemma written_state_members (st : DeferredDisplayState) (b : Rect) (op : DrawOp) :
  members (IsDrawOp (DrawOp_with_state st (set_mBounds b op))) = members (IsDrawOp op).
Proof. reflexivity. Qed.

Lemma draw_defer_members (op : DrawOp) (saveCount level : int) (ds : DeferState) :
  members (IsDrawOp (fst (draw_defer op saveCount level ds))) = members (IsDrawOp op).
Proof.
  unfold draw_defer.
  assert (members (IsDrawOp (fst (DrawOp_defer op saveCount level ds)))
            = members (IsDrawOp op)) as Hbase.
  { unfold DrawOp_defer.
    destruct (mQuickRejected op && clipChildren (DeferStateStruct.mReplayFlags ds));
      [reflexivity|].
    destruct (getLocalBounds op (mBounds (state op))) as [exist lb].
    destruct (deferred _ ds). apply written_state_members. }
  destruct (drawClass op) as [lb []| | | | |]; try exact Hbase.
  unfold DrawDisplayListOp_defer, bind, ret.
  destruct mDisplayList as [l|]; [destruct (isRenderable l)|];
    cbv beta iota; answer_calls; reflexivity.
Qed.

Lemma StateOp_defer_class (op : StateOp) (saveCount level : int) (ds : DeferState) :
  stateClass (fst (StateOp_defer op saveCount level ds)) = stateClass op.
Proof.
  destruct op as [st c].
  destruct c; unfold_pass; reduce_pass; answer_calls; reflexivity.
Qed.

Lemma draw_replay_same (op : DrawOp) (saveCount level : int) (rs : ReplayState) :
  fst (draw_replay op saveCount level rs) = op.
Proof.
  unfold draw_replay.
  assert (fst (DrawOp_replay op saveCount level rs) = op) as Hbase.
  { unfold DrawOp_replay.
    destruct (mQuickRejected op && clipChildren (ReplayStateStruct.mReplayFlags rs));
      [reflexivity|].
    destruct (applyDraw op _ level _) as [[status dirty] r]. reflexivity. }
  destruct (drawClass op) as [lb []| | | | |]; try exact Hbase.
  unfold DrawDisplayListOp_replay, bind, ret.
  destruct mDisplayList as [l|]; [destruct (isRenderable l)|];
    cbv beta iota; answer_calls; reflexivity.
Qed.

Lemma onDrawOpDeferred_writes (op : DrawOp) (r : OpenGLRenderer R) :
  let op' := fst (onDrawOpDeferred op r) in
  state op' = state op /\ mPaint op' = mPaint op
  /\ mQuickRejected op' = mQuickRejected op
  /\ blank_cache (drawClass op') = blank_cache (drawClass op).
Proof.
  unfold onDrawOpDeferred.
  destruct op as [st paint q c]. cbn [drawClass state mPaint mQuickRejected].
  destruct c as [lb []| | | | |]; unfold_pass; cbv beta iota;
    cbn [drawClass state mPaint mQuickRejected impl journal];
    answer_calls;
    try match goal with
        | |- context [mat4_eqb ?a ?b] => destruct (mat4_eqb a b); cbn [negb]
        end;
    answer_calls; cbn; repeat split; reflexivity.
Qed.

(** C2 (amended): defer, replay and the deferred-draw hook leave every
    parameter captured at construction unchanged, for every operation. The
    only members of an operation written during the defer pass are its state
    snapshot (state.mBounds by defer itself, the rest by the batch buffer the
    operation is handed to) and, by the hook of the text operation, the
    precache transform it keeps (a cache, not a constructor argument): defer
    leaves every member outside the state snapshot as it was, the hook leaves
    everything but that cache as it was, and replay writes nothing at all. *)
Theorem parameters_never_change
        (op : DisplayListOp) (saveCount level : int)
        (ds : DeferState) (rs : ReplayState) (r : OpenGLRenderer R) :
  captured (fst (defer op saveCount level ds)) = captured op
  /\ captured (fst (replay op saveCount level rs)) = captured op
  /\ captured (fst (deferred_hook op r)) = captured op
  /\ members (fst (defer op saveCount level ds)) = members op
  /\ fst (replay op saveCount level rs) = op
  /\ forget_cache (fst (deferred_hook op r)) = forget_cache op.
Proof.
  destruct op as [s|d].
  - pose proof (StateOp_defer_class s saveCount level ds) as Hclass.
    unfold defer, replay, deferred_hook, bind, ret.
    destruct (StateOp_defer s saveCount level ds) as [s1 ds1].
    destruct (StateOp_replay s saveCount level rs).
    cbn [fst snd] in *. unfold captured, members. rewrite Hclass.
    repeat split; reflexivity.
  - pose proof (draw_defer_members d saveCount level ds) as Hm.
    pose proof (draw_replay_same d saveCount level rs) as Hr.
    pose proof (onDrawOpDeferred_writes d r) as (Hs & Hp & Hq & Hc).
    unfold defer, replay, deferred_hook, bind, ret.
    destruct (draw_defer d saveCount level ds) as [d1 ds1].
    destruct (draw_replay d saveCount level rs) as [d2 rs2].
    destruct (onDrawOpDeferred d r) as [d3 r3].
    cbn [fst snd] in *. subst d2.
    unfold captured, members, snapshot, forget_cache in *.
    inversion Hm as [[Em Eq Ec]].
    repeat split; congruence.
Qed.

(** *** Clip operations *)

(** C3: for a clip-rect, clip-path or clip-region operation, defer first
    registers the operation with the batch buffer (addClip), which is given
    the renderer as it was on entry, and only then applies the clip of the
    operation itself to the renderer: the journal grows by addClip followed
    by that one clip call, the clip call runs on the renderer left by
    addClip, and the operation comes back with the state addClip left in
    it. *)
Theorem ClipOp_defer_registers_first
        (op : StateOp) (saveCount level : int) (ds : DeferState) :
  isClipOp op = true ->
  exists c : RendererCall,
    is_clip_call c = true
    /\ applyState op saveCount = call_ c
    /\ let r := DeferStateStruct.mRenderer ds in
       let seen := deferred_do (addClip op) (impl r) (DeferStateStruct.mDeferredList ds) in
       defer (IsStateOp op) saveCount level ds
       = (IsStateOp (StateOp_with_state (snd seen) op),
          DeferStateStruct.mk (snd (fst seen))
            (mkRenderer (snd (renderer_do c (fst (fst seen))))
                        (journal r ++ [Deferred (addClip op); Renderer c]))
            (DeferStateStruct.mReplayFlags ds)).
Proof.
  intros Hclip. unfold isClipOp in Hclip.
  destruct op as [st c]. cbn [stateClass] in Hclip.
  destruct c; try discriminate; eexists;
    (split; [|split]; [| reflexivity |]); try reflexivity;
    unfold_pass; reduce_pass; answer_calls; rewrite <- app_assoc; reflexivity.
Qed.

(** *** Save layers *)

(** C4: in a defer pass a save-layer operation reads the save count of the
    renderer, registers itself with the batch buffer (addSaveLayer) under
    that count, and issues the state-only saveLayerDeferred with its own
    area, alpha, mode and flags; these three calls are all it makes, so the
    immediate saveLayer entry point is not among them. The saveLayer call
    itself, with the same arguments, is what applyState (and so replay)
    issues: it is the one call they make, and the renderer they leave is the
    one saveLayer leaves. *)
Theorem SaveLayerOp_defer_placeholder
        (st : DeferredDisplayState) (mArea : Rect) (mAlpha : int)
        (mMode : SkXfermodeMode) (mFlags : int) (saveCount level : int)
        (ds : DeferState) (rs : ReplayState) (r : OpenGLRenderer R) :
  let op := mkStateOp st (SaveLayerOp mArea mAlpha mMode mFlags) in
  let placeholder := saveLayerDeferred (left mArea) (top mArea) (right mArea)
                                       (bottom mArea) mAlpha mMode mFlags in
  let real := saveLayer (left mArea) (top mArea) (right mArea) (bottom mArea)
                        mAlpha mMode mFlags in
  let r0 := DeferStateStruct.mRenderer ds in
  let count := renderer_do getSaveCount (impl r0) in
  let seen := deferred_do (addSaveLayer op (fst count)) (snd count)
                          (DeferStateStruct.mDeferredList ds) in
  let after := snd (defer (IsStateOp op) saveCount level ds) in
  after = DeferStateStruct.mk (snd (fst seen))
            (mkRenderer (snd (renderer_do placeholder (fst (fst seen))))
                        (journal r0 ++ [Renderer getSaveCount;
                                        Deferred (addSaveLayer op (fst count));
                                        Renderer placeholder]))
            (DeferStateStruct.mReplayFlags ds)
  /\ fst (defer (IsStateOp op) saveCount level ds)
     = IsStateOp (StateOp_with_state (snd seen) op)
  /\ (forall c, In c (journal (DeferStateStruct.mRenderer after)) ->
                is_saveLayer c = true -> In c (journal r0))
  /\ applyState op saveCount r
     = (tt, mkRenderer (snd (renderer_do real (impl r))) (journal r ++ [Renderer real]))
  /\ replay (IsStateOp op) saveCount level rs
     = (IsStateOp op,
        ReplayStateStruct.mk
          (mkRenderer (snd (renderer_do real (impl (ReplayStateStruct.mRenderer rs))))
                      (journal (ReplayStateStruct.mRenderer rs) ++ [Renderer real]))
          (ReplayStateStruct.mDirty rs) (ReplayStateStruct.mReplayFlags rs)
          (ReplayStateStruct.mDrawGlStatus rs)).
Proof.
  intros op placeholder real r0 count seen after.
  assert (after = DeferStateStruct.mk (snd (fst seen))
            (mkRenderer (snd (renderer_do placeholder (fst (fst seen))))
                        (journal r0 ++ [Renderer getSaveCount;
                                        Deferred (addSaveLayer op (fst count));
                                        Renderer placeholder]))
            (DeferStateStruct.mReplayFlags ds)) as Hafter.
  { subst after seen count r0 op placeholder. unfold_pass. reduce_pass.
    answer_calls. rewrite <- !app_assoc. reflexivity. }
  split; [exact Hafter|]. split; [|split; [|split]].
  - subst seen count r0 op. unfold_pass. reduce_pass. answer_calls. reflexivity.
  - rewrite Hafter. reduce_pass. intros c Hin Hc.
    apply in_app_or in Hin. destruct Hin as [Hin|Hin]; [exact Hin|].
    destruct Hin as [<-|[<-|[<-|[]]]]; discriminate.
  - subst op real. unfold_pass. reduce_pass. answer_calls. reflexivity.
  - subst op real. unfold_pass. reduce_pass. answer_calls. reflexivity.
Qed.

(** *** Restore to count *)

(** C5: a restore-to-count operation with recorded offset m, run with
    baseline save count s, asks the renderer to restore to s + m (C int
    addition), in replay (applyState) and in defer alike, whatever the
    nesting level; in defer the batch buffer is first handed the same
    resolved count. Within the range of int the sum is the plain s + m. *)
Theorem RestoreToCountOp_relative_to_baseline
        (st : DeferredDisplayState) (m s level : int)
        (ds : DeferState) (rs : ReplayState) (r : OpenGLRenderer R) :
  let op := mkStateOp st (RestoreToCountOp m) in
  let target := int_add s m in
  snd (applyState op s r)
  = mkRenderer (snd (renderer_do (restoreToCount target) (impl r)))
               (journal r ++ [Renderer (restoreToCount target)])
  /\ ReplayStateStruct.mRenderer (snd (replay (IsStateOp op) s level rs))
     = snd (applyState op s (ReplayStateStruct.mRenderer rs))
  /\ journal (DeferStateStruct.mRenderer (snd (defer (IsStateOp op) s level ds)))
     = journal (DeferStateStruct.mRenderer ds)
       ++ [Deferred (addRestoreToCount op target); Renderer (restoreToCount target)]
  /\ (let seen := deferred_do (addRestoreToCount op target)
                              (impl (DeferStateStruct.mRenderer ds))
                              (DeferStateStruct.mDeferredList ds) in
      DeferStateStruct.mDeferredList (snd (defer (IsStateOp op) s level ds))
      = snd (fst seen)
      /\ impl (DeferStateStruct.mRenderer (snd (defer (IsStateOp op) s level ds)))
         = snd (renderer_do (restoreToCount target) (fst (fst seen))))
  /\ (in_int (s + m) -> target = s + m).
Proof.
  intros op target. subst op target. repeat split.
  - unfold_pass. reduce_pass. answer_calls. reflexivity.
  - unfold_pass. reduce_pass. answer_calls. reflexivity.
  - unfold_pass. reduce_pass. answer_calls. rewrite <- app_assoc. reflexivity.
  - unfold_pass. reduce_pass. answer_calls. reflexivity.
  - unfold_pass. reduce_pass. answer_calls. reflexivity.
  - intros Hr. unfold int_add. now apply wrap_in_int.
Qed.

(** *** Nested lists *)

(** C6: defer and replay of the nested-list operation never draw on their
    own account and never register the operation: when the list is present
    and renderable they make one call, the defer (resp. replay) of the nested
    list at level + 1, and the pass continues from what that call leaves;
    when the list is null or not renderable they leave the pass state
    exactly as it was. The operation itself is unchanged either way. *)
Theorem DrawDisplayListOp_recurses
        (op : DrawOp) (lb : Rect) (mDisplayList : option DisplayList) (mFlags : int)
        (saveCount level : int) (ds : DeferState) (rs : ReplayState) :
  drawClass op = Bounded lb (DrawDisplayListOp mDisplayList mFlags) ->
  (forall l, mDisplayList = Some l -> isRenderable l = true ->
     (let r := DeferStateStruct.mRenderer ds in
      let nested := displayList_defer l (int_add level 1)
                      (DeferStateStruct.mReplayFlags ds) (impl r)
                      (DeferStateStruct.mDeferredList ds) in
      draw_defer op saveCount level ds
      = (op, DeferStateStruct.mk (snd nested)
               (mkRenderer (fst nested)
                           (journal r ++ [DisplayList_defer l (int_add level 1)]))
               (DeferStateStruct.mReplayFlags ds)))
     /\ (let r := ReplayStateStruct.mRenderer rs in
         let nested := displayList_replay l (int_add level 1)
                         (ReplayStateStruct.mReplayFlags rs) (impl r)
                         (ReplayStateStruct.mDirty rs)
                         (ReplayStateStruct.mDrawGlStatus rs) in
         draw_replay op saveCount level rs
         = (op, ReplayStateStruct.mk
                  (mkRenderer (fst (fst nested))
                              (journal r ++ [DisplayList_replay l (int_add level 1)]))
                  (snd (fst nested)) (ReplayStateStruct.mReplayFlags rs)
                  (snd nested))))
  /\ (mDisplayList = None
      \/ (exists l, mDisplayList = Some l /\ isRenderable l = false) ->
      draw_defer op saveCount level ds = (op, ds)
      /\ draw_replay op saveCount level rs = (op, rs))
  /\ (in_int (level + 1) -> int_add level 1 = level + 1).
Proof.
  intros Hc. unfold draw_defer, draw_replay. rewrite Hc.
  unfold DrawDisplayListOp_defer, DrawDisplayListOp_replay, bind, ret.
  split; [|split].
  - intros l -> Hr. rewrite Hr. split; reduce_pass; answer_calls; reflexivity.
  - intros [->|(l & -> & Hr)]; [|rewrite Hr]; split; reflexivity.
  - intros Hr. unfold int_add. now apply wrap_in_int.
Qed.

(** *** Unresolved bounds *)

(** C7: in a defer pass, a draw operation that is not skipped by quick
    rejection and whose getLocalBounds reports no bounds gets the empty
    rectangle as its state bounds and is handed, so updated, to the batch
    buffer by addDrawOp, the only call made; it comes back with the state
    addDrawOp left in it. *)
Theorem DrawOp_defer_unresolved_bounds
        (op : DrawOp) (saveCount level : int) (ds : DeferState) :
  mQuickRejected op && clipChildren (DeferStateStruct.mReplayFlags ds) = false ->
  fst (getLocalBounds op (mBounds (state op))) = false ->
  let op' := set_mBounds (mkRect fzero fzero fzero fzero) op in
  let r := DeferStateStruct.mRenderer ds in
  let seen := deferred_do (addDrawOp op') (impl r) (DeferStateStruct.mDeferredList ds) in
  mBounds (state op') = mkRect fzero fzero fzero fzero
  /\ draw_defer op saveCount level ds
     = (DrawOp_with_state (snd seen) op',
        DeferStateStruct.mk (snd (fst seen))
          (mkRenderer (fst (fst seen)) (journal r ++ [Deferred (addDrawOp op')]))
          (DeferStateStruct.mReplayFlags ds)).
Proof.
  intros Hq Hb op' r seen. split; [reflexivity|].
  assert (keeps_DrawOp_protocol op = true) as Hk.
  { unfold keeps_DrawOp_protocol. unfold getLocalBounds in Hb.
    destruct (drawClass op) as [lb []| | | | |]; try reflexivity; discriminate. }
  rewrite (draw_defer_kept op saveCount level Hk).
  unfold DrawOp_defer. rewrite Hq.
  destruct (getLocalBounds op (mBounds (state op))) as [exist b].
  cbn [fst] in Hb. subst exist. subst op' seen r.
  unfold setEmpty, deferred. reduce_pass. answer_calls. reflexivity.
Qed.

End Passes.

(** ** The passes on the counting renderer *)

Lemma DrawOp_quick_reject_witness :
  draw_defer (setQuickRejected true sample_rect) 0 0 (fresh_deferStruct 1)
  = (setQuickRejected true sample_rect, fresh_deferStruct 1)
  /\ draw_replay (setQuickRejected true sample_rect) 0 0 (fresh_replayStruct 1)
     = (setQuickRejected true sample_rect, fresh_replayStruct 1)
  /\ journal (DeferStateStruct.mRenderer
                (snd (draw_defer (setQuickRejected true sample_rect) 0 0
                                 (fresh_deferStruct 0))))
     = [Deferred (addDrawOp (set_mBounds (mkRect f1 f1 f3 f3)
                                         (setQuickRejected true sample_rect)))]
  /\ ReplayStateStruct.mDrawGlStatus
       (snd (draw_replay (setQuickRejected true sample_rect) 0 0 (fresh_replayStruct 0)))
     = 4.
Proof.
  destruct (DrawOp_quick_reject (setQuickRejected true sample_rect) 0 0
              (fresh_deferStruct 1) (fresh_replayStruct 1) eq_refl)
    as (Hd & Hr & _ & _).
  destruct (DrawOp_quick_reject (setQuickRejected true sample_rect) 0 0
              (fresh_deferStruct 0) (fresh_replayStruct 0) eq_refl)
    as (_ & _ & Hd0 & Hr0).
  split; [exact (Hd eq_refl eq_refl)|]. split; [exact (Hr eq_refl eq_refl)|].
  split.
  - destruct (Hd0 eq_refl) as [_ Hj]. rewrite Hj. reflexivity.
  - rewrite (Hr0 eq_refl). reflexivity.
Defined.

(** C1, as stated for every draw operation, fails on the nested-list
    operation: quick-rejected and under the clip-children flag, its defer
    still runs the defer of the nested list, which registers with the batch
    buffer, and its replay still replays the nested list, which draws. *)
Lemma DrawDisplayListOp_ignores_quickRejected :
  mQuickRejected (setQuickRejected true sample_nested) = true
  /\ clipChildren (R := int) (D := list DeferredCall) 1 = true
  /\ draw_defer (setQuickRejected true sample_nested) 0 0 (fresh_deferStruct 1)
     = (setQuickRejected true sample_nested,
        DeferStateStruct.mk [addDrawOp (nested_content small_list)]
                            (mkRenderer 1 [DisplayList_defer small_list 1]) 1)
  /\ draw_replay (setQuickRejected true sample_nested) 0 0 (fresh_replayStruct 1)
     = (setQuickRejected true sample_nested,
        ReplayStateStruct.mk (mkRenderer 1 [DisplayList_replay small_list 1])
                             Rect_default 1 4)
  /\ snd (draw_defer (setQuickRejected true sample_nested) 0 0 (fresh_deferStruct 1))
     <> fresh_deferStruct 1.
Proof.
  repeat split; try reflexivity. discriminate.
Qed.

(** C2, as stated, fails on the text operation: its deferred-draw hook
    writes the precache transform, a member that is not the state
    snapshot. *)
Lemma DrawTextOp_hook_writes_cache :
  drawClass (fst (onDrawOpDeferred sample_text fresh_renderer))
  = Bounded (mkRect f1 f1 f3 f3) (DrawTextOp 16 5 5 f1 f1 0 f2 mat4_identity)
  /\ drawClass sample_text
     = Bounded (mkRect f1 f1 f3 f3) (DrawTextOp 16 5 5 f1 f1 0 f2 mat4_all_ones)
  /\ members (fst (deferred_hook (IsDrawOp sample_text) fresh_renderer))
     <> members (IsDrawOp sample_text).
Proof.
  repeat split; try reflexivity. discriminate.
Qed.

Lemma ClipOp_defer_registers_first_witness :
  exists c : RendererCall,
    is_clip_call c = true
    /\ applyState (R := int) (D := list DeferredCall) sample_clip 0 = call_ c
    /\ defer (IsStateOp sample_clip) 0 0 (fresh_deferStruct 1)
       = (IsStateOp sample_clip,
          DeferStateStruct.mk [addClip sample_clip]
            (mkRenderer (snd (counting_renderer_do c 1))
                        ([] ++ [Deferred (addClip sample_clip); Renderer c])) 1).
Proof.
  exact (ClipOp_defer_registers_first sample_clip 0 0 (fresh_deferStruct 1) eq_refl).
Defined.

Lemma SaveLayerOp_defer_placeholder_witness :
  snd (defer (IsStateOp sample_saveLayer) 0 0 (fresh_deferStruct 1))
  = DeferStateStruct.mk [addSaveLayer sample_saveLayer 1]
      (mkRenderer 2 [Renderer getSaveCount; Deferred (addSaveLayer sample_saveLayer 1);
                     Renderer (saveLayerDeferred f1 f1 f3 f3 128 3 0)]) 1.
Proof.
  destruct (SaveLayerOp_defer_placeholder fresh_state (mkRect f1 f1 f3 f3) 128 3 0
              0 0 (fresh_deferStruct 1) (fresh_replayStruct 1) fresh_renderer)
    as (Hafter & _).
  exact Hafter.
Defined.

Lemma RestoreToCountOp_relative_to_baseline_witness :
  int_add 3 1 = 4
  /\ journal (DeferStateStruct.mRenderer
                (snd (defer (IsStateOp sample_restore) 3 7 (fresh_deferStruct 1))))
     = [Deferred (addRestoreToCount sample_restore (int_add 3 1));
        Renderer (restoreToCount (int_add 3 1))].
Proof.
  destruct (RestoreToCountOp_relative_to_baseline fresh_state 1 3 7
              (fresh_deferStruct 1) (fresh_replayStruct 1) fresh_renderer)
    as (_ & _ & Hd & _ & Hsum).
  split; [apply Hsum; unfold in_int, INT_MIN, INT_MAX; lia | exact Hd].
Defined.

Lemma DrawDisplayListOp_recurses_witness :
  draw_defer sample_nested 0 0 (fresh_deferStruct 0)
  = (sample_nested,
     DeferStateStruct.mk [addDrawOp (nested_content small_list)]
                         (mkRenderer 1 ([] ++ [DisplayList_defer small_list (int_add 0 1)])) 0)
  /\ draw_defer sample_skipped 0 0 (fresh_deferStruct 0)
     = (sample_skipped, fresh_deferStruct 0)
  /\ int_add 0 1 = 1.
Proof.
  destruct (DrawDisplayListOp_recurses sample_nested (mkRect fzero fzero f2 f2)
              (Some small_list) 0 0 0 (fresh_deferStruct 0) (fresh_replayStruct 0)
              eq_refl) as (Hrec & _ & Hlevel).
  destruct (DrawDisplayListOp_recurses sample_skipped (mkRect fzero fzero f2 f2)
              (Some empty_list) 0 0 0 (fresh_deferStruct 0) (fresh_replayStruct 0)
              eq_refl) as (_ & Hskip & _).
  split; [|split].
  - destruct (Hrec small_list eq_refl eq_refl) as [Hd _]. exact Hd.
  - apply Hskip. right. exists empty_list. split; reflexivity.
  - apply Hlevel. unfold in_int, INT_MIN, INT_MAX. lia.
Defined.

Lemma DrawOp_defer_unresolved_bounds_witness :
  draw_defer sample_color 0 0 (fresh_deferStruct 1)
  = (set_mBounds (mkRect fzero fzero fzero fzero) sample_color,
     DeferStateStruct.mk
       [addDrawOp (set_mBounds (mkRect fzero fzero fzero fzero) sample_color)]
       (mkRenderer 1
          ([] ++ [Deferred (addDrawOp (set_mBounds (mkRect fzero fzero fzero fzero)
                                                   sample_color))])) 1).
Proof.
  destruct (DrawOp_defer_unresolved_bounds sample_color 0 0 (fresh_deferStruct 1)
              eq_refl eq_refl) as [_ Hd].
  exact Hd.
Defined.

(** * Further properties *)

(** ** The point-list constructor at its edges *)

Lemma points_get_app (points extra : list float) (i : int) (v : float) :
  points_get points i = Some v -> points_get (points ++ extra) i = Some v.
Proof.
  unfold points_get. destruct (i <? 0); [discriminate|]. intros Hv.
  rewrite nth_error_app1; trivial.
  apply nth_error_Some. congruence.
Qed.

Lemma bounds_loop_prefix (suf : list (float * float)) :
  forall (pre : list (float * float)) (extra : list float) (fuel : nat) (b : Rect),
    (List.length suf <= fuel)%nat ->
    2 * Z.of_nat (List.length (pre ++ suf)) <= INT_MAX ->
    bounds_loop fuel (flatten_points (pre ++ suf) ++ extra)
                (2 * Z.of_nat (List.length (pre ++ suf)))
                (2 * Z.of_nat (List.length pre)) b
    = Some (fold_left (fun b p => include_point b (fst p) (snd p)) suf b).
Proof.
  induction suf as [|p suf IH]; intros pre extra fuel b Hfuel Hmax.
  - rewrite app_nil_r. destruct fuel; simpl; rewrite Z.ltb_irrefl; reflexivity.
  - destruct fuel as [|fuel]; [cbn [List.length] in Hfuel; lia|].
    cbn [bounds_loop].
    assert ((2 * Z.of_nat (List.length pre)
             <? 2 * Z.of_nat (List.length (pre ++ p :: suf))) = true) as ->.
    { apply Z.ltb_lt. rewrite length_app. cbn [List.length]. lia. }
    destruct (points_get_at pre suf p) as [Hx Hy].
    rewrite (points_get_app _ extra _ _ Hx), (points_get_app _ extra _ _ Hy).
    assert (int_add (2 * Z.of_nat (List.length pre)) 2
            = 2 * Z.of_nat (List.length (pre ++ [p]))) as ->.
    { unfold int_add. rewrite wrap_in_int.
      - rewrite length_app. cbn [List.length]. lia.
      - rewrite length_app in Hmax. cbn [List.length] in Hmax.
        unfold in_int, INT_MIN, INT_MAX in *. lia. }
    replace (pre ++ p :: suf) with ((pre ++ [p]) ++ suf)
      by (rewrite <- app_assoc; reflexivity).
    apply IH.
    + cbn [List.length] in Hfuel. lia.
    + rewrite <- app_assoc. exact Hmax.
Qed.

(** X1: the constructor reads [points[0]] and [points[1]] before it looks at
    [count]: on an array of fewer than two floats it reads outside the array
    whatever [count] is, and with two floats or more and [count <= 2] (zero
    and negative counts included) the loop never runs and the bounds are the
    degenerate rectangle of the first point. *)
Theorem DrawBoundedOp_points_short (points : list float) (count : int) :
  ((List.length points < 2)%nat -> DrawBoundedOp_points points count = None)
  /\ (forall x0 y0 more,
        points = x0 :: y0 :: more -> count <= 2 ->
        DrawBoundedOp_points points count = Some (mkRect x0 y0 x0 y0)).
Proof.
  split.
  - intros Hlen. destruct points as [|x0 [|y0 more]]; try reflexivity.
    cbn [List.length] in Hlen. lia.
  - intros x0 y0 more -> Hc. unfold DrawBoundedOp_points.
    change (points_get (x0 :: y0 :: more) 0) with (Some x0).
    change (points_get (x0 :: y0 :: more) 1) with (Some y0).
    cbn [List.length bounds_loop].
    assert ((2 <? count) = false) as -> by (apply Z.ltb_ge; lia).
    reflexivity.
Qed.

Lemma DrawBoundedOp_points_short_witness :
  DrawBoundedOp_points [f1] 2 = None
  /\ DrawBoundedOp_points [f1; f3; f2; f2] 0 = Some (mkRect f1 f3 f1 f3).
Proof.
  destruct (DrawBoundedOp_points_short [f1] 2) as [Hshort _].
  destruct (DrawBoundedOp_points_short [f1; f3; f2; f2] 0) as [_ Hzero].
  split.
  - apply Hshort. cbn [List.length]. lia.
  - apply (Hzero f1 f3 [f2; f2] eq_refl). lia.
Defined.

Lemma bounds_loop_odd (suf : list (float * float)) :
  forall (pre : list (float * float)) (z : float) (fuel : nat) (b : Rect),
    2 * Z.of_nat (List.length (pre ++ suf)) + 1 <= INT_MAX ->
    bounds_loop fuel (flatten_points (pre ++ suf) ++ [z])
                (2 * Z.of_nat (List.length (pre ++ suf)) + 1)
                (2 * Z.of_nat (List.length pre)) b
    = None.
Proof.
  induction suf as [|p suf IH]; intros pre z fuel b Hmax.
  - rewrite app_nil_r.
    destruct fuel as [|fuel]; cbn [bounds_loop];
      (assert ((2 * Z.of_nat (List.length pre)
                <? 2 * Z.of_nat (List.length pre) + 1) = true) as ->
          by (apply Z.ltb_lt; lia)); [reflexivity|].
    assert (points_get (flatten_points pre ++ [z])
                       (2 * Z.of_nat (List.length pre) + 1) = None) as ->.
    { unfold points_get.
      assert ((2 * Z.of_nat (List.length pre) + 1 <? 0) = false) as ->
          by (apply Z.ltb_ge; lia).
      apply nth_error_None. rewrite length_app, flatten_points_length.
      cbn [List.length]. lia. }
    destruct (points_get _ _); reflexivity.
  - destruct fuel as [|fuel]; cbn [bounds_loop];
      (assert ((2 * Z.of_nat (List.length pre)
                <? 2 * Z.of_nat (List.length (pre ++ p :: suf)) + 1) = true) as ->
          by (apply Z.ltb_lt; rewrite length_app; cbn [List.length]; lia));
      [reflexivity|].
    destruct (points_get_at pre suf p) as [Hx Hy].
    rewrite (points_get_app _ [z] _ _ Hx), (points_get_app _ [z] _ _ Hy).
    assert (int_add (2 * Z.of_nat (List.length pre)) 2
            = 2 * Z.of_nat (List.length (pre ++ [p]))) as ->.
    { unfold int_add. rewrite wrap_in_int.
      - rewrite length_app. cbn [List.length]. lia.
      - rewrite length_app in Hmax. cbn [List.length] in Hmax.
        unfold in_int, INT_MIN, INT_MAX in *. lia. }
    replace (pre ++ p :: suf) with ((pre ++ [p]) ++ suf)
      by (rewrite <- app_assoc; reflexivity).
    apply IH. rewrite <- app_assoc. exact Hmax.
Qed.

(** X2: with an odd [count] of three or more that is the length of the
    array, the last turn of the loop reads [points[count]], one float past
    the end of the array. *)
Theorem DrawBoundedOp_points_odd_count
        (p0 : float * float) (rest : list (float * float)) (z : float) :
  2 * Z.of_nat (List.length (p0 :: rest)) + 1 <= INT_MAX ->
  List.length (flatten_points (p0 :: rest) ++ [z])
  = Z.to_nat (2 * Z.of_nat (List.length (p0 :: rest)) + 1)
  /\ DrawBoundedOp_points (flatten_points (p0 :: rest) ++ [z])
                          (2 * Z.of_nat (List.length (p0 :: rest)) + 1)
     = None.
Proof.
  intros Hmax. split.
  - rewrite length_app, flatten_points_length. cbn [List.length]. lia.
  - unfold DrawBoundedOp_points.
    destruct (points_get_at [] rest p0) as [H0 H1].
    change (points_get (flatten_points (p0 :: rest)) 0 = Some (fst p0)) in H0.
    change (points_get (flatten_points (p0 :: rest)) 1 = Some (snd p0)) in H1.
    rewrite (points_get_app _ [z] _ _ H0), (points_get_app _ [z] _ _ H1).
    apply (bounds_loop_odd rest [p0]). exact Hmax.
Qed.

Lemma DrawBoundedOp_points_odd_count_witness :
  List.length [f1; f3; f2; f1; f2] = 5%nat
  /\ DrawBoundedOp_points [f1; f3; f2; f1; f2] 5 = None.
Proof.
  apply (DrawBoundedOp_points_odd_count (f1, f3) [(f2, f1)] f2).
  vm_compute. discriminate.
Defined.

(** X3: only the first [count] floats of the array matter: with an even
    [count] of 2N >= 2, whatever follows the first N points in the array is
    never read, and the bounds are those of the N points alone. *)
Theorem DrawBoundedOp_points_prefix
        (p0 : float * float) (rest : list (float * float)) (extra : list float) :
  2 * Z.of_nat (List.length (p0 :: rest)) <= INT_MAX ->
  DrawBoundedOp_points (flatten_points (p0 :: rest) ++ extra)
                       (2 * Z.of_nat (List.length (p0 :: rest)))
  = bounding_box (p0 :: rest).
Proof.
  intros Hmax. unfold DrawBoundedOp_points.
  destruct (points_get_at [] rest p0) as [H0 H1].
  change (points_get (flatten_points (p0 :: rest)) 0 = Some (fst p0)) in H0.
  change (points_get (flatten_points (p0 :: rest)) 1 = Some (snd p0)) in H1.
  rewrite (points_get_app _ extra _ _ H0), (points_get_app _ extra _ _ H1).
  destruct p0 as [x0 y0]. cbn [fst snd bounding_box].
  apply (bounds_loop_prefix rest [(x0, y0)]); trivial.
  rewrite length_app, flatten_points_length. cbn [List.length]. lia.
Qed.

Lemma DrawBoundedOp_points_prefix_witness :
  DrawBoundedOp_points ([f1; f3; f2; f1] ++ [S754_nan; f3; f3]) 4
  = bounding_box [(f1, f3); (f2, f1)].
Proof.
  apply (DrawBoundedOp_points_prefix (f1, f3) [(f2, f1)] [S754_nan; f3; f3]).
  vm_compute. discriminate.
Defined.

(** ** The smallest rectangle *)

Lemma fminf_choice (a b : float) : fminf a b = a \/ fminf a b = b.
Proof.
  destruct a, b; simpl; auto;
    match goal with |- context [SFltb ?x ?y] => destruct (SFltb x y); auto end.
Qed.

Lemma fmaxf_choice (a b : float) : fmaxf a b = a \/ fmaxf a b = b.
Proof.
  destruct a, b; simpl; auto;
    match goal with |- context [SFltb ?x ?y] => destruct (SFltb x y); auto end.
Qed.

Lemma fold_include_edges (rest : list (float * float)) :
  forall (b : Rect) (xs ys : list float),
    In (left b) xs -> In (right b) xs -> In (top b) ys -> In (bottom b) ys ->
    let b' := fold_left (fun b p => include_point b (fst p) (snd p)) rest b in
    In (left b') (xs ++ map fst rest) /\ In (right b') (xs ++ map fst rest)
    /\ In (top b') (ys ++ map snd rest) /\ In (bottom b') (ys ++ map snd rest).
Proof.
  induction rest as [|[x y] rest IH]; intros b xs ys Hl Hr Ht Hb.
  - cbn. rewrite !app_nil_r. auto.
  - cbn [fold_left map fst snd].
    specialize (IH (include_point b x y) (xs ++ [x]) (ys ++ [y])).
    rewrite <- !app_assoc in IH. cbn [app] in IH. apply IH;
      unfold include_point; cbn [left right top bottom]; apply in_or_app.
    + destruct (fminf_choice (left b) x) as [-> | ->]; [left; trivial | right; now left].
    + destruct (fmaxf_choice (right b) x) as [-> | ->]; [left; trivial | right; now left].
    + destruct (fminf_choice (top b) y) as [-> | ->]; [left; trivial | right; now left].
    + destruct (fmaxf_choice (bottom b) y) as [-> | ->]; [left; trivial | right; now left].
Qed.

Lemma attained_edge_inside (r : Rect) (pts : list (float * float)) :
  (forall x y, In (x, y) pts -> contains_point r x y = true) ->
  (forall x, In x (map fst pts) -> SFleb (left r) x = true /\ SFleb x (right r) = true)
  /\ (forall y, In y (map snd pts) -> SFleb (top r) y = true /\ SFleb y (bottom r) = true).
Proof.
  intros Hall. split.
  - intros x Hin. apply in_map_iff in Hin. destruct Hin as ([x' y'] & E & Hin).
    cbn in E. subst x'. specialize (Hall x y' Hin). unfold contains_point in Hall.
    repeat (apply andb_true_iff in Hall; destruct Hall as [Hall ?]). auto.
  - intros y Hin. apply in_map_iff in Hin. destruct Hin as ([x' y'] & E & Hin).
    cbn in E. subst y'. specialize (Hall x' y Hin). unfold contains_point in Hall.
    repeat (apply andb_true_iff in Hall; destruct Hall as [Hall ?]). auto.
Qed.

(** X4: the bounds the point-list constructor computes are tight: each of
    the four edges is a coordinate of one of the points, so the rectangle
    lies inside every rectangle that contains all the points ("smallest rect
    encompassing all points", as the comment on the constructor says). *)
Theorem DrawBoundedOp_points_smallest
        (p0 : float * float) (rest : list (float * float)) (b : Rect) :
  2 * Z.of_nat (List.length (p0 :: rest)) <= INT_MAX ->
  DrawBoundedOp_points (flatten_points (p0 :: rest))
                       (2 * Z.of_nat (List.length (p0 :: rest))) = Some b ->
  edges_attained b (p0 :: rest)
  /\ (forall r : Rect,
        (forall x y, In (x, y) (p0 :: rest) -> contains_point r x y = true) ->
        rect_inside b r).
Proof.
  intros Hmax Hb. rewrite (DrawBoundedOp_points_fold p0 rest Hmax) in Hb.
  destruct p0 as [x0 y0]. cbn [bounding_box] in Hb. injection Hb as Eb.
  assert (edges_attained b ((x0, y0) :: rest)) as Hedges.
  { rewrite <- Eb. unfold edges_attained. cbn [map fst snd].
    apply (fold_include_edges rest (mkRect x0 y0 x0 y0) [x0] [y0]);
      cbn; auto. }
  split; [exact Hedges|].
  intros r Hall. destruct (attained_edge_inside r _ Hall) as [Hx Hy].
  destruct Hedges as (Hl & Hr & Ht & Hbt). unfold rect_inside.
  destruct (Hx _ Hl) as [? _]. destruct (Hx _ Hr) as [_ ?].
  destruct (Hy _ Ht) as [? _]. destruct (Hy _ Hbt) as [_ ?]. auto.
Qed.

Lemma DrawBoundedOp_points_smallest_witness :
  edges_attained (mkRect f1 f1 f2 f3) [(f1, f3); (f2, f1)]
  /\ (forall r : Rect,
        (forall x y, In (x, y) [(f1, f3); (f2, f1)] -> contains_point r x y = true) ->
        rect_inside (mkRect f1 f1 f2 f3) r).
Proof.
  apply (DrawBoundedOp_points_smallest (f1, f3) [(f2, f1)] (mkRect f1 f1 f2 f3)).
  - vm_compute. discriminate.
  - reflexivity.
Defined.

(** ** The bitmap mesh *)

(** X5: a bitmap mesh of [meshWidth] by [meshHeight] cells given its
    [(meshWidth + 1) * (meshHeight + 1)] vertices is constructed without a
    bad read, whatever the paint, and its local bounds are the bounding box
    of exactly those vertices. *)
Theorem DrawBitmapMeshOp_bounds
        (bitmap colors : handle) (meshWidth meshHeight : int)
        (paint : option SkPaint) (vertices : list (float * float)) :
  0 <= meshWidth -> 0 <= meshHeight ->
  Z.of_nat (List.length vertices) = (meshWidth + 1) * (meshHeight + 1) ->
  2 * (meshWidth + 1) * (meshHeight + 1) <= INT_MAX ->
  exists b : Rect,
    bounding_box vertices = Some b
    /\ new_DrawBitmapMeshOp bitmap meshWidth meshHeight (flatten_points vertices)
                            colors paint
       = Some (new_DrawOp paint
                 (Bounded b (DrawBitmapMeshOp bitmap meshWidth meshHeight
                                              (flatten_points vertices) colors))).
Proof.
  intros Hw Hh Hlen Hmax.
  assert (int_mul (int_mul 2 (int_add meshWidth 1)) (int_add meshHeight 1)
          = 2 * Z.of_nat (List.length vertices)) as Hcount.
  { unfold int_mul, int_add, INT_MAX in *.
    rewrite (wrap_in_int (meshWidth + 1)), (wrap_in_int (meshHeight + 1)),
      (wrap_in_int (2 * (meshWidth + 1))), wrap_in_int;
      unfold in_int, INT_MIN, INT_MAX; nia. }
  destruct vertices as [|p0 rest].
  { cbn [List.length Z.of_nat] in Hlen. nia. }
  unfold new_DrawBitmapMeshOp, new_DrawBoundedOp_points. rewrite Hcount.
  rewrite DrawBoundedOp_points_fold by (rewrite Hlen; lia).
  destruct p0 as [x0 y0]. cbn [bounding_box option_map].
  eexists. split; reflexivity.
Qed.

Lemma DrawBitmapMeshOp_bounds_witness :
  exists b : Rect,
    bounding_box [(f1, f1); (f3, f1); (f1, f2); (f3, f2)] = Some b
    /\ new_DrawBitmapMeshOp 9 1 1
         (flatten_points [(f1, f1); (f3, f1); (f1, f2); (f3, f2)]) 0 None
       = Some (new_DrawOp None
                 (Bounded b (DrawBitmapMeshOp 9 1 1
                               (flatten_points [(f1, f1); (f3, f1); (f1, f2); (f3, f2)])
                               0))).
Proof.
  apply (DrawBitmapMeshOp_bounds 9 0 1 1 None [(f1, f1); (f3, f1); (f1, f2); (f3, f2)]).
  - lia.
  - lia.
  - reflexivity.
  - vm_compute. discriminate.
Defined.

(** ** Clip operations *)

(** X6: a clip by path or by region can always cause a complex clip,
    whatever its set operation; a clip by rectangle can exactly when its set
    operation is neither intersect nor replace. *)
Theorem ClipOp_canCauseComplexClip
        (st : DeferredDisplayState) (mOp : SkRegionOp) :
  (forall mPath, canCauseComplexClip (mkStateOp st (ClipPathOp mOp mPath)) = Some true)
  /\ (forall mRegion mOp_private,
        canCauseComplexClip (mkStateOp st (ClipRegionOp mOp mRegion mOp_private))
        = Some true)
  /\ (forall mArea,
        canCauseComplexClip (mkStateOp st (ClipRectOp mOp mArea)) = Some false
        <-> mOp = kIntersect_Op \/ mOp = kReplace_Op)
  /\ (forall mArea,
        canCauseComplexClip (mkStateOp st (ClipRectOp mOp mArea)) = Some true
        <-> mOp <> kIntersect_Op /\ mOp <> kReplace_Op).
Proof.
  unfold canCauseComplexClip, ClipOp_mOp, isRect. cbn [stateClass option_map negb].
  repeat split; try (rewrite orb_true_r; reflexivity);
    destruct mOp; cbn; intuition (try discriminate; try congruence).
Qed.

(** ** Helpers for the passes *)

Ltac pass_unfold :=
  unfold defer, replay, deferred_hook, draw_defer, draw_replay, StateOp_defer,
    StateOp_replay, DrawOp_defer, DrawOp_replay, DrawDisplayListOp_defer,
    DrawDisplayListOp_replay, onDrawOpDeferred, applyDraw, draw_with_paint,
    applyState, on_deferStruct_mRenderer, on_replayStruct_mRenderer, deferred,
    call_callDrawGLFunction, call_findBestFontTransform, getPaint, call_, call,
    bind, ret in *.

Ltac pass_reduce :=
  cbn [fst snd impl journal stateClass drawClass state mPaint mQuickRejected
       StateOp_with_state
       DeferStateStruct.mRenderer DeferStateStruct.mDeferredList
       DeferStateStruct.mReplayFlags ReplayStateStruct.mRenderer
       ReplayStateStruct.mDirty ReplayStateStruct.mReplayFlags
       ReplayStateStruct.mDrawGlStatus].

Ltac closed_call t :=
  lazymatch t with
  | context [renderer_do _ _] => fail
  | context [renderer_filterPaint _ _] => fail
  | context [renderer_findBestFontTransform _ _] => fail
  | context [renderer_callDrawGLFunction _ _ _] => fail
  | context [deferred_do _ _ _] => fail
  | context [displayList_defer _ _ _ _ _] => fail
  | context [displayList_replay _ _ _ _ _ _] => fail
  | _ => idtac
  end.

Ltac pass_answers :=
  repeat (match goal with
          | |- context [renderer_do ?c ?r] =>
              closed_call c; closed_call r; destruct (renderer_do c r)
          | |- context [renderer_filterPaint ?p ?r] =>
              closed_call r; destruct (renderer_filterPaint p r)
          | |- context [renderer_findBestFontTransform ?m ?r] =>
              closed_call r; destruct (renderer_findBestFontTransform m r)
          | |- context [renderer_callDrawGLFunction ?f ?d ?r] =>
              closed_call d; closed_call r;
              destruct (renderer_callDrawGLFunction f d r) as [[? ?] ?]
          | |- context [deferred_do ?c ?r ?d] =>
              closed_call c; closed_call r; closed_call d;
              destruct (deferred_do c r d) as [[? ?] ?]
          | |- context [displayList_defer ?l ?a ?b ?r ?d] =>
              closed_call r; closed_call d; destruct (displayList_defer l a b r d)
          | |- context [displayList_replay ?l ?a ?b ?r ?d ?s] =>
              closed_call r; closed_call d; closed_call s;
              destruct (displayList_replay l a b r d s) as [[? ?] ?]
          end; pass_reduce).

Lemma mat4_eqb_eq (a b : mat4) : mat4_eqb a b = true <-> a = b.
Proof.
  unfold mat4_eqb. destruct (list_eq_dec Z.eq_dec a b); split; congruence.
Qed.

Lemma getLocalBounds_ext (op op' : DrawOp) (x : Rect) :
  mPaint op = mPaint op' ->
  blank_cache (drawClass op) = blank_cache (drawClass op') ->
  getLocalBounds op x = getLocalBounds op' x.
Proof.
  unfold getLocalBounds. intros Hp Hc. rewrite Hp.
  destruct (drawClass op) as [lb []| | | | |],
           (drawClass op') as [lb' []| | | | |];
    cbn in Hc; try discriminate; injection Hc; intros; subst; reflexivity.
Qed.

Lemma getBatchId_ext (op op' : DrawOp) :
  mPaint op = mPaint op' ->
  blank_cache (drawClass op) = blank_cache (drawClass op') ->
  getBatchId op = getBatchId op'.
Proof.
  unfold getBatchId. intros Hp Hc. rewrite Hp.
  destruct (drawClass op) as [lb []| | | | |],
           (drawClass op') as [lb' []| | | | |];
    cbn in Hc; try discriminate; injection Hc; intros; subst; reflexivity.
Qed.

Section MorePasses.
Context {R D : Type} `{Collaborators R D}.

Local Abbreviation DeferState := (DeferStateStruct.t R D).
Local Abbreviation ReplayState := (ReplayStateStruct.t R).

Lemma applyDraw_ext (op op' : DrawOp) (dirty : Rect) (level level' : int) :
  mPaint op = mPaint op' ->
  blank_cache (drawClass op) = blank_cache (drawClass op') ->
  applyDraw op dirty level = applyDraw op' dirty level'.
Proof.
  unfold applyDraw, draw_with_paint, getPaint. intros Hp Hc. rewrite Hp.
  destruct (drawClass op) as [lb []| | | | |],
           (drawClass op') as [lb' []| | | | |];
    cbn in Hc; try discriminate; injection Hc; intros; subst; reflexivity.
Qed.

(** X7: the clips by rectangle and by path hand the renderer the set
    operation they were constructed with. The clip by region does not: its
    applyState reads the private mOp that the constructor never sets, so the
    operation given to the constructor reaches canCauseComplexClip but never
    the clipRegion call. *)
Theorem ClipRegionOp_private_mOp
        (region path : handle) (l t r b : float) (op op' arena : SkRegionOp)
        (saveCount : int) :
  applyState (new_ClipRectOp l t r b op) saveCount = call_ (clipRect l t r b op)
  /\ applyState (new_ClipPathOp path op) saveCount = call_ (clipPath path op)
  /\ applyState (new_ClipRegionOp region op arena) saveCount
     = call_ (clipRegion region arena)
  /\ applyState (new_ClipRegionOp region op' arena) saveCount
     = applyState (new_ClipRegionOp region op arena) saveCount
  /\ ClipOp_mOp (new_ClipRegionOp region op arena) = Some op.
Proof. repeat split; reflexivity. Qed.

(** *** State operations *)

(** X8: a state operation other than save, restore-to-count, save-layer and
    the clips makes one and the same renderer call in defer and in replay,
    whatever the save count and the level; defer leaves the batch buffer as
    it was (the operation is not registered), and replay leaves the dirty
    rectangle and the draw status as they were. *)
Theorem StateOp_default_protocol (op : StateOp) :
  keeps_StateOp_defer op = true ->
  exists c : RendererCall,
    forall (saveCount level : int) (ds : DeferState) (rs : ReplayState),
      applyState op saveCount = call_ c
      /\ defer (IsStateOp op) saveCount level ds
         = (IsStateOp op,
            DeferStateStruct.mk (DeferStateStruct.mDeferredList ds)
              (mkRenderer (snd (renderer_do c (impl (DeferStateStruct.mRenderer ds))))
                          (journal (DeferStateStruct.mRenderer ds) ++ [Renderer c]))
              (DeferStateStruct.mReplayFlags ds))
      /\ replay (IsStateOp op) saveCount level rs
         = (IsStateOp op,
            ReplayStateStruct.mk
              (mkRenderer (snd (renderer_do c (impl (ReplayStateStruct.mRenderer rs))))
                          (journal (ReplayStateStruct.mRenderer rs) ++ [Renderer c]))
              (ReplayStateStruct.mDirty rs) (ReplayStateStruct.mReplayFlags rs)
              (ReplayStateStruct.mDrawGlStatus rs)).
Proof.
  intros Hk. unfold keeps_StateOp_defer in Hk. destruct op as [st c].
  cbn [stateClass] in Hk.
  destruct c; try discriminate; eexists; intros saveCount level ds rs;
    (split; [reflexivity|]); split; pass_unfold; pass_reduce; pass_answers;
    reflexivity.
Qed.

(** X9: the defer of a save operation saves on the renderer first and then
    registers with the batch buffer, handing it the count that save
    answered and the renderer as save left it (the reverse of the order of
    the clips); the operation comes back with the state addSave left in it.
    Its replay makes the one call save and leaves the renderer as save
    leaves it, the rest of the pass state untouched. *)
Theorem SaveOp_defer_saves_first
        (st : DeferredDisplayState) (mFlags saveCount level : int)
        (ds : DeferState) (rs : ReplayState) :
  let op := mkStateOp st (SaveOp mFlags) in
  let r := DeferStateStruct.mRenderer ds in
  let saved := renderer_do (save mFlags) (impl r) in
  let seen := deferred_do (addSave op (fst saved)) (snd saved)
                          (DeferStateStruct.mDeferredList ds) in
  defer (IsStateOp op) saveCount level ds
  = (IsStateOp (StateOp_with_state (snd seen) op),
     DeferStateStruct.mk (snd (fst seen))
       (mkRenderer (fst (fst seen))
                   (journal r ++ [Renderer (save mFlags);
                                  Deferred (addSave op (fst saved))]))
       (DeferStateStruct.mReplayFlags ds))
  /\ replay (IsStateOp op) saveCount level rs
     = (IsStateOp op,
        ReplayStateStruct.mk
          (mkRenderer
             (snd (renderer_do (save mFlags) (impl (ReplayStateStruct.mRenderer rs))))
             (journal (ReplayStateStruct.mRenderer rs) ++ [Renderer (save mFlags)]))
          (ReplayStateStruct.mDirty rs) (ReplayStateStruct.mReplayFlags rs)
          (ReplayStateStruct.mDrawGlStatus rs)).
Proof.
  cbv zeta. split; pass_unfold; pass_reduce; pass_answers;
    rewrite <- ?app_assoc; reflexivity.
Qed.

(** X10: the save count of the pass matters to the restore-to-count
    operation alone, and the level to the nested-list operation alone: every
    other operation defers and replays the same whatever they are. *)
Theorem saveCount_and_level_unused
        (saveCount saveCount' level level' : int) (ds : DeferState) (rs : ReplayState) :
  (forall op : StateOp,
     is_RestoreToCountOp op = false ->
     defer (IsStateOp op) saveCount level ds = defer (IsStateOp op) saveCount' level' ds
     /\ replay (IsStateOp op) saveCount level rs
        = replay (IsStateOp op) saveCount' level' rs)
  /\ (forall op : StateOp,
        defer (IsStateOp op) saveCount level ds = defer (IsStateOp op) saveCount level' ds
        /\ replay (IsStateOp op) saveCount level rs
           = replay (IsStateOp op) saveCount level' rs)
  /\ (forall op : DrawOp,
        keeps_DrawOp_protocol op = true ->
        defer (IsDrawOp op) saveCount level ds = defer (IsDrawOp op) saveCount' level' ds
        /\ replay (IsDrawOp op) saveCount level rs
           = replay (IsDrawOp op) saveCount' level' rs)
  /\ (forall op : DrawOp,
        defer (IsDrawOp op) saveCount level ds = defer (IsDrawOp op) saveCount' level ds
        /\ replay (IsDrawOp op) saveCount level rs
           = replay (IsDrawOp op) saveCount' level rs).
Proof.
  split; [|split; [|split]].
  - intros [st c] Hr. unfold is_RestoreToCountOp in Hr. cbn [stateClass] in Hr.
    destruct c; try discriminate; split; reflexivity.
  - intros [st c]. destruct c; split; reflexivity.
  - intros op Hk. unfold defer, replay.
    rewrite !(draw_defer_kept op _ _ Hk), !(draw_replay_kept op _ _ Hk).
    unfold bind, ret, DrawOp_defer, DrawOp_replay.
    rewrite (applyDraw_ext op op (ReplayStateStruct.mDirty rs) level level')
      by reflexivity.
    split; reflexivity.
  - intros op. unfold defer, replay, draw_defer, draw_replay.
    destruct (drawClass op) as [lb []| | | | |]; split; reflexivity.
Qed.


(** *** What replay accumulates *)

(** X11: replay never changes the replay flags, for any operation, the
    nested-list operation included; a state operation leaves the dirty
    rectangle and the draw status as they were; a draw operation that keeps
    DrawOp::replay never clears a bit of the draw status, and leaves the
    dirty rectangle as it was unless it is the functor operation. *)
Theorem replay_accumulators
        (saveCount level : int) (rs : ReplayState) :
  (forall op : StateOp,
     let rs' := snd (replay (IsStateOp op) saveCount level rs) in
     ReplayStateStruct.mReplayFlags rs' = ReplayStateStruct.mReplayFlags rs
     /\ ReplayStateStruct.mDirty rs' = ReplayStateStruct.mDirty rs
     /\ ReplayStateStruct.mDrawGlStatus rs' = ReplayStateStruct.mDrawGlStatus rs)
  /\ (forall op : DrawOp,
        keeps_DrawOp_protocol op = true ->
        let rs' := snd (replay (IsDrawOp op) saveCount level rs) in
        ReplayStateStruct.mReplayFlags rs' = ReplayStateStruct.mReplayFlags rs
        /\ (forall i, Z.testbit (ReplayStateStruct.mDrawGlStatus rs) i = true ->
                      Z.testbit (ReplayStateStruct.mDrawGlStatus rs') i = true)
        /\ (is_DrawFunctorOp (drawClass op) = false ->
            ReplayStateStruct.mDirty rs' = ReplayStateStruct.mDirty rs))
  /\ (forall op : DrawOp,
        ReplayStateStruct.mReplayFlags (snd (replay (IsDrawOp op) saveCount level rs))
        = ReplayStateStruct.mReplayFlags rs).
Proof.
  split; [|split].
  - intros op. cbv zeta. unfold replay, StateOp_replay, on_replayStruct_mRenderer,
      bind, ret.
    destruct (applyState op saveCount (ReplayStateStruct.mRenderer rs)).
    repeat split; reflexivity.
  - intros op Hk. cbv zeta. unfold replay, bind, ret.
    rewrite (draw_replay_kept op _ _ Hk). unfold DrawOp_replay.
    destruct (mQuickRejected op && clipChildren (ReplayStateStruct.mReplayFlags rs)).
    + repeat split; auto.
    + destruct (applyDraw op (ReplayStateStruct.mDirty rs) level
                          (ReplayStateStruct.mRenderer rs))
        as [[status dirty] r] eqn:Hdraw.
      pass_reduce. split; [reflexivity|]. split.
      * intros i Hi. rewrite Z.lor_spec, Hi. reflexivity.
      * intros Hf.
        assert (snd (fst (applyDraw op (ReplayStateStruct.mDirty rs) level
                                    (ReplayStateStruct.mRenderer rs)))
                = ReplayStateStruct.mDirty rs) as Hd.
        { clear Hdraw. unfold applyDraw, draw_with_paint, getPaint, call_, call,
            bind, ret.
          destruct (drawClass op) as [lb [| | | | | |[]| | | | | |]| | | | |];
            try discriminate; pass_reduce; pass_answers; reflexivity. }
        rewrite Hdraw in Hd. exact Hd.
  - intros op. unfold replay, draw_replay, bind, ret.
    destruct (drawClass op) as [lb []| | | | |];
      try (unfold DrawOp_replay;
           destruct (mQuickRejected op
                     && clipChildren (ReplayStateStruct.mReplayFlags rs));
           [reflexivity|];
           destruct (applyDraw op (ReplayStateStruct.mDirty rs) level
                               (ReplayStateStruct.mRenderer rs)) as [[? ?] ?];
           reflexivity).
    unfold DrawDisplayListOp_replay.
    destruct mDisplayList as [l|]; [destruct (isRenderable l)|];
      pass_reduce; pass_answers; reflexivity.
Qed.

(** X12: replaying a functor operation that is not skipped marks the
    renderer, calls the functor with the dirty rectangle of the pass, and
    closes the mark; the dirty rectangle the functor leaves becomes the
    dirty rectangle of the pass and its status is or-ed into the draw
    status. No paint is asked for. *)
Theorem DrawFunctorOp_replay
        (op : DrawOp) (mFunctor : handle) (saveCount level : int) (rs : ReplayState) :
  drawClass op = DrawFunctorOp mFunctor ->
  mQuickRejected op && clipChildren (ReplayStateStruct.mReplayFlags rs) = false ->
  let r := ReplayStateStruct.mRenderer rs in
  let dirty := ReplayStateStruct.mDirty rs in
  let marked := snd (renderer_do (startMark "GL functor"%string) (impl r)) in
  let answer := renderer_callDrawGLFunction mFunctor dirty marked in
  snd (replay (IsDrawOp op) saveCount level rs)
  = ReplayStateStruct.mk
      (mkRenderer (snd (renderer_do endMark (snd answer)))
                  (journal r ++ [Renderer (startMark "GL functor"%string);
                                 Renderer (callDrawGLFunction mFunctor dirty);
                                 Renderer endMark]))
      (snd (fst answer)) (ReplayStateStruct.mReplayFlags rs)
      (Z.lor (ReplayStateStruct.mDrawGlStatus rs) (fst (fst answer))).
Proof.
  intros Hc Hq. cbv zeta. unfold replay, draw_replay, bind, ret. rewrite Hc.
  unfold DrawOp_replay. rewrite Hq.
  unfold applyDraw, call_callDrawGLFunction, call_, call, bind, ret. rewrite Hc.
  pass_reduce. pass_answers. rewrite <- !app_assoc. reflexivity.
Qed.

(** *** The deferred-draw hook *)

(** X13: for every draw class that does not override it, the deferred-draw
    hook does nothing at all: the operation and the renderer come back as
    they were. The overrides of the path and of the two positioned text
    classes leave the operation as it was too. *)
Theorem onDrawOpDeferred_default (op : DrawOp) (r : OpenGLRenderer R) :
  (overrides_hook (drawClass op) = false -> onDrawOpDeferred op r = (op, r))
  /\ ((forall lb t bc n x y ps len cache,
         drawClass op <> Bounded lb (DrawTextOp t bc n x y ps len cache)) ->
      fst (onDrawOpDeferred op r) = op).
Proof.
  unfold onDrawOpDeferred, overrides_hook. split.
  - intros Ho. destruct (drawClass op) as [lb []| | | | |];
      try discriminate; reflexivity.
  - intros Hn. destruct (drawClass op) as [lb []| | | | |] eqn:Hc;
      try reflexivity;
      try (unfold getPaint, call_, call, bind, ret; pass_reduce; pass_answers;
           reflexivity).
    exfalso. eapply Hn. reflexivity.
Qed.

(** X14: the hook of the text operation filters the paint, has the font
    renderer for that paint picked, and asks the renderer for the best font
    transform of the state matrix; afterwards the operation remembers exactly
    that transform. When the remembered transform was already that one, the
    font renderer is not asked to precache again and the operation is
    unchanged (the three calls above are all that is made); otherwise
    precache is called once more, on the picked font renderer, with the
    filtered paint and the new transform. *)
Theorem DrawTextOp_hook_cache
        (op : DrawOp) (lb : Rect) (mText : handle) (mBytesCount mCount : int)
        (mX mY : float) (mPositions : handle) (mLength : float) (cache : mat4)
        (r : OpenGLRenderer R) :
  drawClass op = Bounded lb (DrawTextOp mText mBytesCount mCount mX mY mPositions
                                        mLength cache) ->
  let filtered := renderer_filterPaint (mPaint op) (impl r) in
  let picked := renderer_do (getFontRenderer (fst filtered)) (snd filtered) in
  let best := renderer_findBestFontTransform (mMatrix (state op)) (snd picked) in
  let asked := [Renderer (filterPaint (mPaint op));
                Renderer (getFontRenderer (fst filtered));
                Renderer (findBestFontTransform (mMatrix (state op)))] in
  let precache := fontRenderer_precache (fst picked) (fst filtered) mText mCount
                                        (fst best) in
  fst (onDrawOpDeferred op r)
  = mkDrawOp (state op) (mPaint op) (mQuickRejected op)
             (Bounded lb (DrawTextOp mText mBytesCount mCount mX mY mPositions
                                     mLength (fst best)))
  /\ (fst best = cache ->
      onDrawOpDeferred op r = (op, mkRenderer (snd best) (journal r ++ asked)))
  /\ (fst best <> cache ->
      snd (onDrawOpDeferred op r)
      = mkRenderer (snd (renderer_do precache (snd best)))
                   (journal r ++ asked ++ [Renderer precache])).
Proof.
  intros Hc. cbv zeta. destruct op as [st paint q c]. cbn [drawClass] in Hc. subst c.
  unfold onDrawOpDeferred, getPaint, call_findBestFontTransform, call_, call,
    bind, ret. pass_reduce.
  destruct (renderer_filterPaint paint (impl r)) as [p i1]. pass_reduce.
  destruct (renderer_do (getFontRenderer p) i1) as [fr i2]. pass_reduce.
  destruct (renderer_findBestFontTransform (mMatrix st) i2) as [t i3]. pass_reduce.
  destruct (mat4_eqb cache t) eqn:E; cbn [negb].
  - apply mat4_eqb_eq in E. subst t. split; [reflexivity|split].
    + intros _. rewrite <- !app_assoc. reflexivity.
    + intros Hne. congruence.
  - assert (t <> cache) as Hne.
    { intros ->. rewrite (proj2 (mat4_eqb_eq cache cache) eq_refl) in E. discriminate. }
    pass_reduce. pass_answers.
    split; [reflexivity|split].
    + intros Heq. congruence.
    + intros _. rewrite <- !app_assoc. reflexivity.
Qed.

(** *** Deferring and what is drawn later *)






(** X16: what an operation draws, its batch id and its local bounds are the
    same after a defer and after the deferred-draw hook as before: neither
    the state bounds written by defer nor the transform remembered by the
    text hook reach applyDraw, getBatchId or getLocalBounds. *)
Theorem defer_keeps_drawing
        (op : DrawOp) (saveCount level level' : int) (ds : DeferState)
        (r : OpenGLRenderer R) (dirty x : Rect) :
  let deferred_op := fst (draw_defer op saveCount level ds) in
  let hooked_op := fst (onDrawOpDeferred deferred_op r) in
  applyDraw hooked_op dirty level' = applyDraw op dirty level'
  /\ getBatchId hooked_op = getBatchId op
  /\ getLocalBounds hooked_op x = getLocalBounds op x.
Proof.
  cbv zeta.
  pose proof (draw_defer_members op saveCount level ds) as Hm.
  destruct (onDrawOpDeferred_writes (fst (draw_defer op saveCount level ds)) r)
    as (_ & Hp & _ & Hc).
  unfold members in Hm. injection Hm as Hp1 _ Hc1.
  rewrite Hp1 in Hp. rewrite Hc1 in Hc.
  split; [|split].
  - now apply applyDraw_ext.
  - now apply getBatchId_ext.
  - now apply getLocalBounds_ext.
Qed.


(** *** Batch ids and the null paint *)

(** X18: getBatchId dereferences a null paint exactly for the stroke-capable
    operations, lines, points and the three text classes constructed without
    a paint; every other class answers without reading the paint, so the
    operations whose constructors pass a null paint (patch, colour, functor,
    nested list, layer) always have a batch id. *)
Theorem getBatchId_null_paint (op : DrawOp) :
  (getBatchId op = None
   <-> mPaint op = None /\ batch_reads_paint (drawClass op) = true)
  /\ (forall bitmap xDivs yDivs colors width height numColors l t r b alpha mode,
        getBatchId (new_DrawPatchOp bitmap xDivs yDivs colors width height numColors
                                    l t r b alpha mode) = Some kOpBatch_Patch)
  /\ (forall color mode, getBatchId (new_DrawColorOp color mode) = Some kOpBatch_None)
  /\ (forall functor, getBatchId (new_DrawFunctorOp functor) = Some kOpBatch_None)
  /\ (forall displayList flags,
        getBatchId (new_DrawDisplayListOp displayList flags) = Some kOpBatch_None)
  /\ (forall layer x y, getBatchId (new_DrawLayerOp layer x y) = Some kOpBatch_None).
Proof.
  split; [|repeat split; reflexivity].
  unfold getBatchId, batch_reads_paint.
  destruct (drawClass op) as [lb []| | | | |], (mPaint op) as [p|];
    cbn; split; intros E; try discriminate; try (destruct E; discriminate);
    auto.
Qed.

(** *** From constructor to draw call *)

(** X19: a stroke-capable operation draws with the geometry its constructor
    was given (for the circle: centre and radius, not the bounds derived from
    them) and with the paint that filterPaint answers for the paint it was
    given, asked immediately before the draw; the status of the draw is what
    applyDraw answers and the dirty rectangle is untouched. The outset that
    getLocalBounds applies for stroked paints never reaches the draw call. *)
Theorem DrawStrokableOp_draws_as_constructed
        (l t r b : float) (paint : option SkPaint) (dirty : Rect) (level : int)
        (rnd : OpenGLRenderer R) :
  let filtered := renderer_filterPaint paint (impl rnd) in
  let drawn (c : RendererCall) :=
    ((fst (renderer_do c (snd filtered)), dirty),
     mkRenderer (snd (renderer_do c (snd filtered)))
                (journal rnd ++ [Renderer (filterPaint paint); Renderer c])) in
  applyDraw (new_DrawRectOp l t r b paint) dirty level rnd
  = drawn (drawRect l t r b (fst filtered))
  /\ applyDraw (new_DrawOvalOp l t r b paint) dirty level rnd
     = drawn (drawOval l t r b (fst filtered))
  /\ (forall rx ry,
        applyDraw (new_DrawRoundRectOp l t r b rx ry paint) dirty level rnd
        = drawn (drawRoundRect l t r b rx ry (fst filtered)))
  /\ (forall startAngle sweepAngle useCenter,
        applyDraw (new_DrawArcOp l t r b startAngle sweepAngle useCenter paint)
                  dirty level rnd
        = drawn (drawArc l t r b startAngle sweepAngle useCenter (fst filtered)))
  /\ (forall x y radius,
        applyDraw (new_DrawCircleOp x y radius paint) dirty level rnd
        = ((fst (renderer_do (drawCircle x y radius (fst filtered)) (snd filtered)),
            dirty),
           mkRenderer
             (snd (renderer_do (drawCircle x y radius (fst filtered)) (snd filtered)))
             (journal rnd ++ [Renderer (filterPaint paint);
                              Renderer (drawCircle x y radius (fst filtered))]))).
Proof.
  cbv zeta.
  repeat split; intros;
    unfold applyDraw, draw_with_paint, getPaint, call, bind, ret;
    cbn [drawClass mPaint new_DrawRectOp new_DrawOvalOp new_DrawRoundRectOp
         new_DrawArcOp new_DrawCircleOp new_DrawStrokableOp new_DrawBoundedOp
         new_DrawOp left top right bottom];
    pass_reduce; pass_answers; rewrite <- app_assoc; reflexivity.
Qed.

End MorePasses.

Lemma StateOp_default_protocol_witness :
  exists c : RendererCall,
    forall (saveCount level : int)
           (ds : DeferStateStruct.t int (list DeferredCall))
           (rs : ReplayStateStruct.t int),
      applyState (new_StateOp (TranslateOp f1 f2)) saveCount = call_ c
      /\ defer (IsStateOp (new_StateOp (TranslateOp f1 f2))) saveCount level ds
         = (IsStateOp (new_StateOp (TranslateOp f1 f2)),
            DeferStateStruct.mk (DeferStateStruct.mDeferredList ds)
              (mkRenderer (snd (counting_renderer_do c (impl (DeferStateStruct.mRenderer ds))))
                          (journal (DeferStateStruct.mRenderer ds) ++ [Renderer c]))
              (DeferStateStruct.mReplayFlags ds))
      /\ replay (IsStateOp (new_StateOp (TranslateOp f1 f2))) saveCount level rs
         = (IsStateOp (new_StateOp (TranslateOp f1 f2)),
            ReplayStateStruct.mk
              (mkRenderer (snd (counting_renderer_do c (impl (ReplayStateStruct.mRenderer rs))))
                          (journal (ReplayStateStruct.mRenderer rs) ++ [Renderer c]))
              (ReplayStateStruct.mDirty rs) (ReplayStateStruct.mReplayFlags rs)
              (ReplayStateStruct.mDrawGlStatus rs)).
Proof.
  exact (StateOp_default_protocol (new_StateOp (TranslateOp f1 f2)) eq_refl).
Defined.

Lemma saveCount_and_level_unused_witness :
  defer (IsStateOp sample_clip) 3 0 (fresh_deferStruct 1)
  = defer (IsStateOp sample_clip) 8 5 (fresh_deferStruct 1)
  /\ replay (IsDrawOp sample_rect) 3 0 (fresh_replayStruct 1)
     = replay (IsDrawOp sample_rect) 8 5 (fresh_replayStruct 1).
Proof.
  destruct (saveCount_and_level_unused 3 8 0 5 (fresh_deferStruct 1)
                                       (fresh_replayStruct 1))
    as (Hstate & _ & Hdraw & _).
  split.
  - destruct (Hstate sample_clip eq_refl) as [Hd _]. exact Hd.
  - destruct (Hdraw sample_rect eq_refl) as [_ Hr]. exact Hr.
Defined.



Lemma getBatchId_null_paint_witness :
  getBatchId (new_DrawRectOp f1 f1 f3 f3 None) = None
  /\ getBatchId sample_color <> None.
Proof.
  split.
  - apply (getBatchId_null_paint (new_DrawRectOp f1 f1 f3 f3 None)).
    split; reflexivity.
  - intros E. apply (getBatchId_null_paint sample_color) in E.
    destruct E as [_ E]. discriminate.
Defined.

(** ** The further properties on the counting renderer *)

Lemma replay_accumulators_witness :
  ReplayStateStruct.mDrawGlStatus
    (snd (replay (IsDrawOp sample_rect) 0 0 (fresh_replayStruct 0))) = 4
  /\ ReplayStateStruct.mDirty
       (snd (replay (IsDrawOp sample_rect) 0 0 (fresh_replayStruct 0))) = Rect_default
  /\ (forall i, Z.testbit 0 i = true ->
        Z.testbit (ReplayStateStruct.mDrawGlStatus
                     (snd (replay (IsDrawOp sample_rect) 0 0 (fresh_replayStruct 0)))) i
        = true).
Proof.
  destruct (replay_accumulators 0 0 (fresh_replayStruct 0)) as (_ & Hdraw & _).
  destruct (Hdraw sample_rect eq_refl) as (_ & Hbits & Hdirty).
  split; [reflexivity|]. split; [exact (Hdirty eq_refl) | exact Hbits].
Defined.

Lemma DrawFunctorOp_replay_witness :
  snd (replay (IsDrawOp (new_DrawFunctorOp 5)) 0 0 (fresh_replayStruct 1))
  = ReplayStateStruct.mk
      (mkRenderer 1 ([] ++ [Renderer (startMark "GL functor"%string);
                            Renderer (callDrawGLFunction 5 Rect_default);
                            Renderer endMark]))
      Rect_default 1 (Z.lor 0 2).
Proof.
  exact (DrawFunctorOp_replay (new_DrawFunctorOp 5) 5 0 0 (fresh_replayStruct 1)
                              eq_refl eq_refl).
Defined.

Lemma onDrawOpDeferred_default_witness :
  onDrawOpDeferred sample_rect fresh_renderer = (sample_rect, fresh_renderer)
  /\ fst (onDrawOpDeferred
            (new_DrawOp (Some fill_paint) (DrawPosTextOp 16 5 5 0)) fresh_renderer)
     = new_DrawOp (Some fill_paint) (DrawPosTextOp 16 5 5 0).
Proof.
  split.
  - destruct (onDrawOpDeferred_default sample_rect fresh_renderer) as [Hd _].
    apply Hd. reflexivity.
  - destruct (onDrawOpDeferred_default
                (new_DrawOp (Some fill_paint) (DrawPosTextOp 16 5 5 0)) fresh_renderer)
      as [_ Hn].
    apply Hn. intros; discriminate.
Defined.

Lemma DrawTextOp_hook_cache_witness :
  fst (onDrawOpDeferred sample_text fresh_renderer)
  = mkDrawOp (state sample_text) (mPaint sample_text) (mQuickRejected sample_text)
             (Bounded (mkRect f1 f1 f3 f3) (DrawTextOp 16 5 5 f1 f1 0 f2 mat4_identity))
  /\ onDrawOpDeferred (fst (onDrawOpDeferred sample_text fresh_renderer)) fresh_renderer
     = (fst (onDrawOpDeferred sample_text fresh_renderer),
        mkRenderer 1 ([] ++ [Renderer (filterPaint (Some fill_paint));
                             Renderer (getFontRenderer (Some fill_paint));
                             Renderer (findBestFontTransform mat4_identity)])).
Proof.
  split.
  - destruct (DrawTextOp_hook_cache sample_text (mkRect f1 f1 f3 f3) 16 5 5 f1 f1 0 f2
                mat4_all_ones fresh_renderer eq_refl) as (Hafter & _ & _).
    exact Hafter.
  - assert (drawClass (fst (onDrawOpDeferred sample_text fresh_renderer))
            = Bounded (mkRect f1 f1 f3 f3)
                      (DrawTextOp 16 5 5 f1 f1 0 f2 mat4_identity)) as Hc
        by reflexivity.
    destruct (DrawTextOp_hook_cache _ _ _ _ _ _ _ _ _ _ fresh_renderer Hc)
      as (_ & Hhit & _).
    apply Hhit. reflexivity.
Defined.
